(** * The ES8388 I2S test character driver (os/drivers/audio/es8388char.c)

    A shallow embedding of the driver's buffer life cycle: the TX admission
    semaphore [alloc], the queue of received buffers [rxedq] with its guard
    [rxsem] and its counting semaphore [cnt_rxsem], the stream settings, and
    the ioctl dispatcher with the two I2S completion callbacks.

    Driver code is written in a small monad over the device structure and a
    trace of the calls made to the collaborators (buffer pool, I2S lower
    half, codec over I2C).  A computation returns, blocks in [sem_wait], or
    faults on a failed [DEBUGASSERT]. *)

From Stdlib Require Import ZArith List Bool Lia.
Import ListNotations.
Local Open Scope Z_scope.

(** ** Constants that come from headers

    The driver includes tinyara/audio/audio.h, errno.h and es8388char.h.
    Their numeric values are not part of the driver; the driver only relies
    on the labels of one [switch] being pairwise different (which C
    enforces) and on errno values being positive. *)

Class Headers : Type := {
  AUDIOIOC_ALLOCBUFFER : Z;
  AUDIOIOC_FREEBUFFER : Z;
  AUDIOIOC_ENQUEUEBUFFER : Z;
  AUDIOIOC_DEQUEUEBUFFER : Z;
  AUDIOIOC_CONFIGURE : Z;
  AUDIOIOC_START : Z;
  AUDIOIOC_STOP : Z;

  AUDIO_TYPE_FEATURE : Z;
  AUDIO_TYPE_OUTPUT : Z;
  AUDIO_TYPE_PROCESSING : Z;

  AUDIO_FU_VOLUME : Z;
  AUDIO_FU_MUTE : Z;
  AUDIO_FU_BALANCE : Z;
  AUDIO_FU_MICGAIN : Z;

  AUDIO_SAMP_RATE_8K : Z;
  AUDIO_SAMP_RATE_12K : Z;
  AUDIO_SAMP_RATE_16K : Z;
  AUDIO_SAMP_RATE_24K : Z;
  AUDIO_SAMP_RATE_32K : Z;
  AUDIO_SAMP_RATE_48K : Z;
  AUDIO_SAMP_RATE_96K : Z;

  ENOTTY : Z;
  ERANGE : Z;
  ENOMEM : Z;

  (* sizeof(struct audio_buf_desc_s) *)
  SIZEOF_audio_buf_desc_s : Z;

  CONFIG_AUDIO_ES8388CHAR_RXTIMEOUT : Z;
  CONFIG_AUDIO_ES8388CHAR_TXTIMEOUT : Z;

  (* CONFIG_DEBUG: whether DEBUGASSERT is compiled in *)
  CONFIG_DEBUG : bool;

  ioctl_labels :
    NoDup [AUDIOIOC_ALLOCBUFFER; AUDIOIOC_FREEBUFFER; AUDIOIOC_ENQUEUEBUFFER;
           AUDIOIOC_DEQUEUEBUFFER; AUDIOIOC_CONFIGURE; AUDIOIOC_START;
           AUDIOIOC_STOP];
  type_labels :
    NoDup [AUDIO_TYPE_FEATURE; AUDIO_TYPE_OUTPUT; AUDIO_TYPE_PROCESSING];
  fu_labels :
    NoDup [AUDIO_FU_VOLUME; AUDIO_FU_MUTE; AUDIO_FU_BALANCE; AUDIO_FU_MICGAIN];
  rate_labels :
    NoDup [AUDIO_SAMP_RATE_8K; AUDIO_SAMP_RATE_12K; AUDIO_SAMP_RATE_16K;
           AUDIO_SAMP_RATE_24K; AUDIO_SAMP_RATE_32K; AUDIO_SAMP_RATE_48K;
           AUDIO_SAMP_RATE_96K];
  errno_positive : 0 < ENOTTY /\ 0 < ERANGE /\ 0 < ENOMEM
}.

Definition OK : Z := 0.

Definition ES8388CHAR_RXBUF_CNT : Z := 8.
Definition ES8388CHAR_TXBUF_CNT : Z := 8.

(** ** Machine integers

    Stores into the narrow fields of the device structure wrap. *)

Definition to_uint8 (x : Z) : Z := x mod 256.
Definition to_uint16 (x : Z) : Z := x mod 65536.
Definition to_uint32 (x : Z) : Z := x mod 4294967296.
Definition to_int16 (x : Z) : Z := (x + 32768) mod 65536 - 32768.

(** ** Data *)

(** An audio pipeline buffer ([struct ap_buffer_s *], never NULL). *)
Definition ap_buffer := nat.

(** [struct es8388char_dev_s].  The two collaborator handles [i2s], [i2c]
    and [i2c_config] are fixed at registration; calls made through them are
    recorded in the trace of the [world] below. *)
Record es8388char_dev_s : Type := mk_dev {
  rxedq : list ap_buffer;   (* Queue of received audio IN buffers *)
  rxsem : Z;                (* Protect RX Q and rx_cnt *)
  cnt_rxsem : Z;            (* Counting semaphore of received buffers *)
  rx_cnt : Z;               (* Count allocated RX buffers (int) *)
  alloc : Z;                (* Counting semaphore for Alloc TX buffers *)
  exclsem : Z;              (* Assures mutually exclusive access *)
  samprate : Z;             (* uint32_t *)
  bpsamp : Z;               (* uint8_t *)
  nchannels : Z;            (* uint8_t *)
  volume : Z;               (* uint8_t *)
  balance : Z;              (* int16_t *)
  micgain : Z;              (* int16_t *)
  running : bool;
  paused : bool;
  mute : bool;
  terminating : bool
}.

Definition set_rxedq (v : list ap_buffer) (p : es8388char_dev_s) :=
  mk_dev v (rxsem p) (cnt_rxsem p) (rx_cnt p) (alloc p) (exclsem p)
         (samprate p) (bpsamp p) (nchannels p) (volume p) (balance p)
         (micgain p) (running p) (paused p) (mute p) (terminating p).
Definition set_rxsem (v : Z) (p : es8388char_dev_s) :=
  mk_dev (rxedq p) v (cnt_rxsem p) (rx_cnt p) (alloc p) (exclsem p)
         (samprate p) (bpsamp p) (nchannels p) (volume p) (balance p)
         (micgain p) (running p) (paused p) (mute p) (terminating p).
Definition set_cnt_rxsem (v : Z) (p : es8388char_dev_s) :=
  mk_dev (rxedq p) (rxsem p) v (rx_cnt p) (alloc p) (exclsem p)
         (samprate p) (bpsamp p) (nchannels p) (volume p) (balance p)
         (micgain p) (running p) (paused p) (mute p) (terminating p).
Definition set_rx_cnt (v : Z) (p : es8388char_dev_s) :=
  mk_dev (rxedq p) (rxsem p) (cnt_rxsem p) v (alloc p) (exclsem p)
         (samprate p) (bpsamp p) (nchannels p) (volume p) (balance p)
         (micgain p) (running p) (paused p) (mute p) (terminating p).
Definition set_alloc (v : Z) (p : es8388char_dev_s) :=
  mk_dev (rxedq p) (rxsem p) (cnt_rxsem p) (rx_cnt p) v (exclsem p)
         (samprate p) (bpsamp p) (nchannels p) (volume p) (balance p)
         (micgain p) (running p) (paused p) (mute p) (terminating p).
Definition set_exclsem (v : Z) (p : es8388char_dev_s) :=
  mk_dev (rxedq p) (rxsem p) (cnt_rxsem p) (rx_cnt p) (alloc p) v
         (samprate p) (bpsamp p) (nchannels p) (volume p) (balance p)
         (micgain p) (running p) (paused p) (mute p) (terminating p).
Definition set_samprate (v : Z) (p : es8388char_dev_s) :=
  mk_dev (rxedq p) (rxsem p) (cnt_rxsem p) (rx_cnt p) (alloc p) (exclsem p)
         v (bpsamp p) (nchannels p) (volume p) (balance p)
         (micgain p) (running p) (paused p) (mute p) (terminating p).
Definition set_bpsamp (v : Z) (p : es8388char_dev_s) :=
  mk_dev (rxedq p) (rxsem p) (cnt_rxsem p) (rx_cnt p) (alloc p) (exclsem p)
         (samprate p) v (nchannels p) (volume p) (balance p)
         (micgain p) (running p) (paused p) (mute p) (terminating p).
Definition set_nchannels (v : Z) (p : es8388char_dev_s) :=
  mk_dev (rxedq p) (rxsem p) (cnt_rxsem p) (rx_cnt p) (alloc p) (exclsem p)
         (samprate p) (bpsamp p) v (volume p) (balance p)
         (micgain p) (running p) (paused p) (mute p) (terminating p).
Definition set_volume (v : Z) (p : es8388char_dev_s) :=
  mk_dev (rxedq p) (rxsem p) (cnt_rxsem p) (rx_cnt p) (alloc p) (exclsem p)
         (samprate p) (bpsamp p) (nchannels p) v (balance p)
         (micgain p) (running p) (paused p) (mute p) (terminating p).
Definition set_balance (v : Z) (p : es8388char_dev_s) :=
  mk_dev (rxedq p) (rxsem p) (cnt_rxsem p) (rx_cnt p) (alloc p) (exclsem p)
         (samprate p) (bpsamp p) (nchannels p) (volume p) v
         (micgain p) (running p) (paused p) (mute p) (terminating p).
Definition set_micgain (v : Z) (p : es8388char_dev_s) :=
  mk_dev (rxedq p) (rxsem p) (cnt_rxsem p) (rx_cnt p) (alloc p) (exclsem p)
         (samprate p) (bpsamp p) (nchannels p) (volume p) (balance p)
         v (running p) (paused p) (mute p) (terminating p).
Definition set_mute (v : bool) (p : es8388char_dev_s) :=
  mk_dev (rxedq p) (rxsem p) (cnt_rxsem p) (rx_cnt p) (alloc p) (exclsem p)
         (samprate p) (bpsamp p) (nchannels p) (volume p) (balance p)
         (micgain p) (running p) (paused p) v (terminating p).

(** [struct audio_caps_s], as far as the driver reads it.  [ac_controls] is
    a union; the driver reads it as [hw[0]] (volume, balance, mic gain,
    sample rate), as [b[0]] (mute) and as [b[2]] (sample width), and each
    read is given here as the value it yields. *)
Record audio_caps_s : Type := mk_caps {
  ac_type : Z;            (* uint8_t *)
  ac_channels : Z;        (* uint8_t *)
  ac_format_hw : Z;       (* uint16_t *)
  ac_controls_hw0 : Z;    (* uint16_t *)
  ac_controls_b0 : Z;     (* uint8_t *)
  ac_controls_b2 : Z      (* uint8_t *)
}.

(** [struct audio_buf_desc_s]: the requested size and the union [u], read
    as [u.pBuffer] ([None] is NULL).  When [u] is used as [u.ppBuffer] the
    buffer pool stores the new buffer through it; that store is recorded in
    the trace entry of [apb_alloc]. *)
Record audio_buf_desc_s : Type := mk_bufdesc {
  numbytes : Z;
  u_pBuffer : option ap_buffer
}.

(** What [unsigned long arg] points to. *)
Inductive ioctl_arg : Type :=
| ArgBufDesc (b : audio_buf_desc_s)
| ArgCaps (c : audio_caps_s)
| ArgWord (v : Z).

(** ** Collaborators *)

Inductive codec_reg : Type :=
| ES8388_ADCCONTROL5 | ES8388_DACCONTROL2 | ES8388_CHIPPOWER.

Inductive codec_val : Type :=
| ADCFsRatio (r : Z) | DACFsRatio (r : Z) | RegVal (v : Z).

(** One entry per call that leaves the driver. *)
Inductive ext_call : Type :=
| Call_apb_alloc (nbytes : Z) (ret : Z) (stored : option ap_buffer)
| Call_apb_free (apb : option ap_buffer)
| Call_I2S_SEND (apb : option ap_buffer) (timeout : Z) (ret : Z)
| Call_I2S_RECEIVE (apb : ap_buffer) (timeout : Z) (ret : Z)
| Call_I2S_TXDATAWIDTH (bits : Z)
| Call_i2c_script_codec_init
| Call_modifyreg (reg : codec_reg) (clear : Z) (set : codec_val).

(** What the collaborators answer during one ioctl: the [k]-th call of
    [apb_alloc] returns [apb_alloc_ret k] and, when that is not negative,
    hands out buffer [apb_alloc_buf k]; [I2S_SEND] returns [i2s_send_ret];
    the [k]-th [I2S_RECEIVE] returns [i2s_receive_ret k]. *)
Record env : Type := mk_env {
  apb_alloc_ret : nat -> Z;
  apb_alloc_buf : nat -> ap_buffer;
  i2s_send_ret : Z;
  i2s_receive_ret : nat -> Z
}.

Record world : Type := mk_world {
  priv : es8388char_dev_s;
  trace : list ext_call
}.

(** ** The driver monad *)

Inductive outcome (A : Type) : Type :=
| Returns (a : A) (w : world)     (* ran to completion *)
| Blocks (w : world)              (* suspended in sem_wait *)
| Faults (w : world)              (* DEBUGASSERT failed, or a wrong cast *)
| Unfinished (w : world).         (* loop bound of the model reached *)
Arguments Returns {A} a w.
Arguments Blocks {A} w.
Arguments Faults {A} w.
Arguments Unfinished {A} w.

Definition M (A : Type) : Type := world -> outcome A.

Definition ret {A} (a : A) : M A := fun w => Returns a w.

Definition bind {A B} (m : M A) (k : A -> M B) : M B :=
  fun w =>
    match m w with
    | Returns a w' => k a w'
    | Blocks w' => Blocks w'
    | Faults w' => Faults w'
    | Unfinished w' => Unfinished w'
    end.

Declare Scope drv_scope.
Delimit Scope drv_scope with drv.
Notation "x <- m ;; k" := (bind m (fun x => k))
  (at level 61, m at next level, right associativity) : drv_scope.
Notation "m ;;; k" := (bind m (fun _ => k))
  (at level 61, right associativity) : drv_scope.
Local Open Scope drv_scope.

Definition get_priv : M es8388char_dev_s := fun w => Returns (priv w) w.

Definition modify_priv (f : es8388char_dev_s -> es8388char_dev_s) : M unit :=
  fun w => Returns tt (mk_world (f (priv w)) (trace w)).

Definition call (c : ext_call) : M unit :=
  fun w => Returns tt (mk_world (priv w) (trace w ++ [c])).

(** Modelled from the spec: the semaphore operations of the kernel
    (sem_init, sem_wait, sem_post; not in the driver source).  A semaphore
    is its count of free slots: acquire blocks the caller until a slot is
    free and then reserves it, release returns a slot and never blocks. *)
Inductive sem_id : Type := SEM_exclsem | SEM_alloc | SEM_rxsem | SEM_cnt_rxsem.

Definition sem_count (s : sem_id) (p : es8388char_dev_s) : Z :=
  match s with
  | SEM_exclsem => exclsem p
  | SEM_alloc => alloc p
  | SEM_rxsem => rxsem p
  | SEM_cnt_rxsem => cnt_rxsem p
  end.

Definition sem_init (s : sem_id) (v : Z) (p : es8388char_dev_s) :=
  match s with
  | SEM_exclsem => set_exclsem v p
  | SEM_alloc => set_alloc v p
  | SEM_rxsem => set_rxsem v p
  | SEM_cnt_rxsem => set_cnt_rxsem v p
  end.

Definition sem_wait (s : sem_id) : M unit :=
  fun w =>
    if 0 <? sem_count s (priv w)
    then Returns tt (mk_world (sem_init s (sem_count s (priv w) - 1) (priv w))
                              (trace w))
    else Blocks w.

Definition sem_post (s : sem_id) : M unit :=
  modify_priv (fun p => sem_init s (sem_count s p + 1) p).

(** Modelled from the spec: the queue primitives of the C library
    (dq_init, dq_addlast, dq_remfirst; not in the driver source).  The
    queue is the ordered sequence of the buffers it holds: [dq_addlast]
    appends, [dq_remfirst] removes the head entry and yields NULL on an
    empty queue. *)
Definition dq_init : list ap_buffer := [].

Definition dq_addlast (apb : ap_buffer) (q : list ap_buffer) : list ap_buffer :=
  q ++ [apb].

Definition dq_remfirst (q : list ap_buffer) : option ap_buffer * list ap_buffer :=
  match q with
  | [] => (None, [])
  | apb :: q' => (Some apb, q')
  end.

Section Driver.
Context {H : Headers}.

Definition DEBUGASSERT (b : bool) : M unit :=
  fun w => if CONFIG_DEBUG && negb b then Faults w else Returns tt w.

(** A cast of [arg] to a structure it does not point to. *)
Definition bad_cast {A} : M A := fun w => Faults w.

(** *** Calls into the collaborators *)

(** [apb_alloc(bufdesc)]: the pool's answer, with the buffer it stores
    through [bufdesc->u.ppBuffer] when the answer is not negative. *)
Definition apb_alloc (e : env) (k : nat) (bufdesc : audio_buf_desc_s)
  : M (Z * ap_buffer) :=
  let r := apb_alloc_ret e k in
  call (Call_apb_alloc (numbytes bufdesc) r
          (if r <? 0 then None else Some (apb_alloc_buf e k))) ;;;
  ret (r, apb_alloc_buf e k).

Definition apb_free (apb : option ap_buffer) : M unit :=
  call (Call_apb_free apb).

Definition I2S_SEND (e : env) (apb : option ap_buffer) (timeout : Z) : M Z :=
  call (Call_I2S_SEND apb timeout (i2s_send_ret e)) ;;;
  ret (i2s_send_ret e).

Definition I2S_RECEIVE (e : env) (k : nat) (apb : ap_buffer) (timeout : Z) : M Z :=
  call (Call_I2S_RECEIVE apb timeout (i2s_receive_ret e k)) ;;;
  ret (i2s_receive_ret e k).

(** *** es8388char_setdatawidth *)

Definition es8388char_setdatawidth : M unit :=
  p <- get_priv ;;
  call (Call_I2S_TXDATAWIDTH (bpsamp p)).

(** *** es8388char_setbitrate

    The [switch] on the sample rate: [Some FsRatio] for the seven rates,
    [None] for the [default] label. *)

Definition FsRatio_of (rate : Z) : option Z :=
  if rate =? AUDIO_SAMP_RATE_8K then Some 10        (* 0x0A *)
  else if rate =? AUDIO_SAMP_RATE_12K then Some 7
  else if rate =? AUDIO_SAMP_RATE_16K then Some 6
  else if rate =? AUDIO_SAMP_RATE_24K then Some 4
  else if rate =? AUDIO_SAMP_RATE_32K then Some 3
  else if rate =? AUDIO_SAMP_RATE_48K then Some 2
  else if rate =? AUDIO_SAMP_RATE_96K then Some 0
  else None.

Definition es8388char_setbitrate : M unit :=
  p <- get_priv ;;
  match FsRatio_of (samprate p) with
  | None => ret tt                 (* "Not supported sample rate"; return *)
  | Some FsRatio =>
      call Call_i2c_script_codec_init ;;;
      call (Call_modifyreg ES8388_ADCCONTROL5 255 (ADCFsRatio FsRatio)) ;;;
      call (Call_modifyreg ES8388_DACCONTROL2 255 (DACFsRatio FsRatio)) ;;;
      call (Call_modifyreg ES8388_CHIPPOWER 255 (RegVal 0))
  end.

(** *** es8388char_setvolume

    The two levels are computed and then dropped: the register writes are
    commented out in the source. *)

Definition es8388char_setvolume_levels (p : es8388char_dev_s) : Z * Z :=
  let bal := balance p in
  let vol_l := to_uint16 (volume p) in
  let vol_r := to_uint16 (volume p) in
  let vol_l :=
    if 0 <? bal then to_uint16 (vol_l - Z.quot (vol_l * Z.abs bal) 1000)
    else vol_l in
  let vol_r :=
    if bal <? 0 then to_uint16 (vol_r - Z.quot (vol_l * Z.abs bal) 1000)
    else vol_r in
  (vol_l, vol_r).

Definition es8388char_setvolume : M unit :=
  p <- get_priv ;;
  let _ := es8388char_setvolume_levels p in
  ret tt.

(** *** es8388char_setmic (body commented out in the source) *)

Definition es8388char_setmic : M unit := ret tt.

(** *** es8388char_configure *)

Definition es8388char_configure (caps : audio_caps_s) : M Z :=
  DEBUGASSERT true ;;;                       (* priv && caps *)
  if ac_type caps =? AUDIO_TYPE_FEATURE then
    if ac_format_hw caps =? AUDIO_FU_VOLUME then
      (if ac_controls_hw0 caps <=? 1000
       then modify_priv
              (set_volume
                 (to_uint8 (63 - Z.quot (63 * ac_controls_hw0 caps) 1000)))
       else ret tt) ;;;
      es8388char_setvolume ;;;
      ret OK
    else if ac_format_hw caps =? AUDIO_FU_MUTE then
      modify_priv (set_mute (negb (ac_controls_b0 caps =? 0))) ;;;
      es8388char_setvolume ;;;
      ret OK
    else if ac_format_hw caps =? AUDIO_FU_BALANCE then
      let bal := to_int16 (ac_controls_hw0 caps) in
      (if Z.abs bal <=? 1000 then modify_priv (set_balance bal) else ret tt) ;;;
      es8388char_setvolume ;;;
      ret OK
    else if ac_format_hw caps =? AUDIO_FU_MICGAIN then
      let gain := to_int16 (ac_controls_hw0 caps) in
      (if (-16 <=? gain) && (gain <=? 53)
       then modify_priv (set_micgain gain) ;;; es8388char_setmic
       else ret tt) ;;;
      ret OK
    else
      ret (- ENOTTY)
  else if ac_type caps =? AUDIO_TYPE_OUTPUT then
    if negb (ac_channels caps =? 2) then
      ret (- ERANGE)
    else
      modify_priv (set_samprate (to_uint32 (ac_controls_hw0 caps))) ;;;
      modify_priv (set_nchannels (to_uint8 (ac_channels caps))) ;;;
      modify_priv (set_bpsamp (to_uint8 (ac_controls_b2 caps))) ;;;
      es8388char_setdatawidth ;;;
      es8388char_setbitrate ;;;
      ret OK
  else if ac_type caps =? AUDIO_TYPE_PROCESSING then
    ret OK
  else
    ret OK.

(** *** es8388char_start, es8388char_stop *)

Definition es8388char_start (caps : ioctl_arg) : M Z := ret OK.

Definition es8388char_stop (caps : ioctl_arg) : M Z := ret OK.

(** *** The I2S completion callbacks *)

Definition es8388char_rxcallback (apb : ap_buffer) (result : Z) : M unit :=
  DEBUGASSERT true ;;;                       (* priv && apb *)
  sem_wait SEM_rxsem ;;;
  modify_priv (fun p => set_rxedq (dq_addlast apb (rxedq p)) p) ;;;
  sem_post SEM_rxsem ;;;
  sem_post SEM_cnt_rxsem.

Definition es8388char_txcallback (apb : ap_buffer) (result : Z) : M unit :=
  DEBUGASSERT true ;;;                       (* priv && apb *)
  apb_free (Some apb) ;;;
  sem_post SEM_alloc.

(** *** es8388char_ioctl *)

(** The [while (priv->rx_cnt < ES8388CHAR_RXBUF_CNT)] loop of
    AUDIOIOC_DEQUEUEBUFFER; [r] is the local [ret], [k] counts iterations.
    [rx_cnt] is a C [int]; the model does not bound it. *)
Fixpoint dequeue_prepost (fuel : nat) (e : env) (k : nat)
    (r : Z) (bufdesc : audio_buf_desc_s) : M (Z * audio_buf_desc_s) :=
  p <- get_priv ;;
  if rx_cnt p <? ES8388CHAR_RXBUF_CNT then
    match fuel with
    | O => fun w => Unfinished w
    | S fuel' =>
        let bufdesc :=
          if numbytes bufdesc =? 0
          then mk_bufdesc (1024 * 16) (u_pBuffer bufdesc) else bufdesc in
        ra <- apb_alloc e k bufdesc ;;
        if fst ra <? 0 then ret (fst ra, bufdesc)
        else
          r' <- I2S_RECEIVE e k (snd ra) CONFIG_AUDIO_ES8388CHAR_RXTIMEOUT ;;
          if r' <? 0 then
            apb_free (Some (snd ra)) ;;;
            ret (r', bufdesc)
          else
            sem_wait SEM_rxsem ;;;
            modify_priv (fun p => set_rx_cnt (rx_cnt p + 1) p) ;;;
            sem_post SEM_rxsem ;;;
            dequeue_prepost fuel' e (S k) r' bufdesc
    end
  else ret (r, bufdesc).

(** The part of AUDIOIOC_DEQUEUEBUFFER under [if (ret >= 0)]. *)
Definition dequeue_take (bufdesc : audio_buf_desc_s) : M (Z * ioctl_arg) :=
  sem_wait SEM_cnt_rxsem ;;;
  sem_wait SEM_rxsem ;;;
  p <- get_priv ;;
  modify_priv (set_rxedq (snd (dq_remfirst (rxedq p)))) ;;;
  sem_post SEM_rxsem ;;;
  ret (0, ArgBufDesc (mk_bufdesc (numbytes bufdesc)
                                 (fst (dq_remfirst (rxedq p))))).

Definition es8388char_ioctl (cmd : Z) (arg : ioctl_arg) (e : env)
  : M (Z * ioctl_arg) :=
  DEBUGASSERT true ;;;                       (* filep, inode, priv *)
  if cmd =? AUDIOIOC_ALLOCBUFFER then
    sem_wait SEM_alloc ;;;
    match arg with
    | ArgBufDesc bufdesc =>
        ra <- apb_alloc e 0 bufdesc ;;
        ret (fst ra, arg)
    | _ => bad_cast
    end
  else if cmd =? AUDIOIOC_FREEBUFFER then
    match arg with
    | ArgBufDesc bufdesc =>
        DEBUGASSERT (match u_pBuffer bufdesc with Some _ => true | None => false end) ;;;
        apb_free (u_pBuffer bufdesc) ;;;
        p <- get_priv ;;
        DEBUGASSERT (0 <? rx_cnt p) ;;;
        sem_wait SEM_rxsem ;;;
        modify_priv (fun p => set_rx_cnt (rx_cnt p - 1) p) ;;;
        sem_post SEM_rxsem ;;;
        ret (SIZEOF_audio_buf_desc_s, arg)
    | _ => bad_cast
    end
  else if cmd =? AUDIOIOC_ENQUEUEBUFFER then
    match arg with
    | ArgBufDesc bufdesc =>
        r <- I2S_SEND e (u_pBuffer bufdesc) CONFIG_AUDIO_ES8388CHAR_TXTIMEOUT ;;
        ret (r, arg)
    | _ => bad_cast
    end
  else if cmd =? AUDIOIOC_DEQUEUEBUFFER then
    match arg with
    | ArgBufDesc bufdesc =>
        p <- get_priv ;;
        rb <- dequeue_prepost (Z.to_nat (ES8388CHAR_RXBUF_CNT - rx_cnt p))
                              e 0 0 bufdesc ;;
        let bufdesc := mk_bufdesc (numbytes (snd rb)) None in
        if 0 <=? fst rb then dequeue_take bufdesc
        else ret (fst rb, ArgBufDesc bufdesc)
    | _ => bad_cast
    end
  else if cmd =? AUDIOIOC_CONFIGURE then
    match arg with
    | ArgCaps caps =>
        r <- es8388char_configure caps ;;
        ret (r, arg)
    | _ => bad_cast
    end
  else if cmd =? AUDIOIOC_START then
    r <- es8388char_start arg ;;
    ret (r, arg)
  else if cmd =? AUDIOIOC_STOP then
    r <- es8388char_stop arg ;;
    ret (r, arg)
  else
    ret (0, arg).

(** *** es8388char_register

    The function opens with DEBUGASSERT(i2s != NULL && i2c != NULL &&
    (unsigned)minor < 1000): [i2s] and [i2c] say whether the two handles
    are present, [minor] is the C int, and the result is [None] when the
    assertion fails in a debug build.  Then [kmm_zalloc] clears the
    structure and the semaphores and the queue are initialised.  The
    function returns OK even when [register_driver] fails, in which case
    the structure has been freed. *)

Definition zeroed_dev : es8388char_dev_s :=
  mk_dev [] 0 0 0 0 0 0 0 0 0 0 0 false false false false.

Definition es8388char_register (i2s i2c : bool) (minor : Z)
    (kmm_zalloc_ok : bool) (register_driver_ret : Z)
  : option (Z * option es8388char_dev_s) :=
  if negb (i2s && i2c && (to_uint32 minor <? 1000)) && CONFIG_DEBUG then None
  else
    Some
      (if kmm_zalloc_ok then
         let p := zeroed_dev in
         let p := sem_init SEM_exclsem 1 p in
         let p := sem_init SEM_alloc ES8388CHAR_TXBUF_CNT p in
         let p := set_rxedq dq_init p in
         let p := sem_init SEM_rxsem 1 p in
         let p := sem_init SEM_cnt_rxsem 0 p in
         let p := set_rx_cnt 0 p in
         (OK, if register_driver_ret <? 0 then None else Some p)
       else (- ENOMEM, None)).

End Driver.

(** ** Runs of the device

    The driver is entered from caller threads (ioctl) and from the I2S
    lower half (completion callbacks).  A run is a sequence of such entries,
    each executed up to its return or up to the [sem_wait] where it
    suspends.  A DEQUEUEBUFFER that suspended on [cnt_rxsem] has already
    run its pre-posting loop; it continues later with [Ev_resume_dequeue].
    An ALLOCBUFFER that suspended on [alloc] had done nothing yet, so its
    continuation is the ioctl itself. *)

Inductive event : Type :=
| Ev_ioctl (cmd : Z) (arg : ioctl_arg) (e : env)
| Ev_resume_dequeue (bufdesc : audio_buf_desc_s)
| Ev_rxcallback (apb : ap_buffer) (result : Z)
| Ev_txcallback (apb : ap_buffer) (result : Z).

Definition world_of {A} (o : outcome A) : world :=
  match o with
  | Returns _ w | Blocks w | Faults w | Unfinished w => w
  end.

Definition halts {A} (o : outcome A) : bool :=
  match o with
  | Faults _ | Unfinished _ => true
  | _ => false
  end.

Section Runs.
Context {H : Headers}.

(** What an entry gives back: the ioctl's return value and the structure
    behind [arg]; nothing for a callback. *)
Definition step (w : world) (ev : event) : outcome (option (Z * ioctl_arg)) :=
  match ev with
  | Ev_ioctl cmd arg e => bind (es8388char_ioctl cmd arg e) (fun r => ret (Some r)) w
  | Ev_resume_dequeue bufdesc => bind (dequeue_take bufdesc) (fun r => ret (Some r)) w
  | Ev_rxcallback apb result => bind (es8388char_rxcallback apb result) (fun _ => ret None) w
  | Ev_txcallback apb result => bind (es8388char_txcallback apb result) (fun _ => ret None) w
  end.

Definition history : Type := list (event * outcome (option (Z * ioctl_arg))).

(** The world after the events, and what each of them did.  A fault stops
    the system. *)
Fixpoint run (w : world) (evs : list event) : world * history :=
  match evs with
  | [] => (w, [])
  | ev :: evs' =>
      let o := step w ev in
      if halts o then (world_of o, [(ev, o)])
      else let r := run (world_of o) evs' in (fst r, (ev, o) :: snd r)
  end.

(** The device as [es8388char_register] leaves it (both handles present,
    minor 0, allocation and [register_driver] successful). *)
Definition registered_dev : es8388char_dev_s :=
  match es8388char_register true true 0 true OK with
  | Some (_, Some p) => p
  | _ => zeroed_dev
  end.

Definition boot : world := mk_world registered_dev [].

(** Slots of the admission gate in use: the ceiling less the free slots. *)
Definition in_use (w : world) : Z := ES8388CHAR_TXBUF_CNT - alloc (priv w).

(** Buffers handed to callers by DEQUEUEBUFFER, oldest first. *)
Definition dequeued_by (entry : event * outcome (option (Z * ioctl_arg)))
  : list (option ap_buffer) :=
  match entry with
  | (Ev_ioctl cmd _ _, Returns (Some (r, ArgBufDesc b)) _) =>
      if (cmd =? AUDIOIOC_DEQUEUEBUFFER) && (r =? 0) then [u_pBuffer b] else []
  | (Ev_resume_dequeue _, Returns (Some (_, ArgBufDesc b)) _) => [u_pBuffer b]
  | _ => []
  end.

Definition dequeued (h : history) : list (option ap_buffer) :=
  flat_map dequeued_by h.

(** Buffers completed by the receive callback, oldest first. *)
Definition completed_by (entry : event * outcome (option (Z * ioctl_arg)))
  : list ap_buffer :=
  match entry with
  | (Ev_rxcallback apb _, Returns _ _) => [apb]
  | _ => []
  end.

Definition completed (h : history) : list ap_buffer :=
  flat_map completed_by h.

(** ALLOCBUFFER calls that got past [sem_wait(&priv->alloc)]. *)
Definition passed_gate (entry : event * outcome (option (Z * ioctl_arg))) : bool :=
  match entry with
  | (Ev_ioctl cmd _ _, Returns _ _) => cmd =? AUDIOIOC_ALLOCBUFFER
  | (Ev_ioctl cmd _ _, Faults _) => cmd =? AUDIOIOC_ALLOCBUFFER
  | _ => false
  end.

(** Transmit completions. *)
Definition tx_completion (entry : event * outcome (option (Z * ioctl_arg))) : bool :=
  match entry with
  | (Ev_txcallback _ _, Returns _ _) => true
  | _ => false
  end.

Definition count_of {A} (f : A -> bool) (l : list A) : Z :=
  Z.of_nat (length (filter f l)).

(** Between two entries the guard of the queue is free, [cnt_rxsem] counts
    the queued buffers and the gate has no negative number of free slots. *)
Definition gate_queue_inv (w : world) : Prop :=
  rxsem (priv w) = 1 /\
  cnt_rxsem (priv w) = Z.of_nat (length (rxedq (priv w))) /\
  0 <= alloc (priv w).

(** What one entry does to the queue and to the gate. *)
Definition entry_effect (w : world)
    (entry : event * outcome (option (Z * ioctl_arg))) : Prop :=
  let w' := world_of (snd entry) in
  gate_queue_inv w' /\
  map Some (rxedq (priv w)) ++ map Some (completed_by entry) =
    dequeued_by entry ++ map Some (rxedq (priv w')) /\
  alloc (priv w') =
    alloc (priv w) - (if passed_gate entry then 1 else 0)
                   + (if tx_completion entry then 1 else 0) /\
  (forall w'', snd entry <> Unfinished w'').

End Runs.

(** ** One assignment of the header constants

    Used to evaluate the driver on concrete inputs.  The general theorems
    below hold for every assignment. *)

Ltac solve_nodup :=
  repeat (constructor; [ cbn; intuition discriminate | ]); constructor.

#[local] Instance sample_headers : Headers.
Proof.
  refine {|
    AUDIOIOC_ALLOCBUFFER := 4107;
    AUDIOIOC_FREEBUFFER := 4108;
    AUDIOIOC_ENQUEUEBUFFER := 4109;
    AUDIOIOC_DEQUEUEBUFFER := 4110;
    AUDIOIOC_CONFIGURE := 4100;
    AUDIOIOC_START := 4102;
    AUDIOIOC_STOP := 4103;
    AUDIO_TYPE_FEATURE := 16;
    AUDIO_TYPE_OUTPUT := 2;
    AUDIO_TYPE_PROCESSING := 64;
    AUDIO_FU_VOLUME := 2;
    AUDIO_FU_MUTE := 1;
    AUDIO_FU_BALANCE := 2048;
    AUDIO_FU_MICGAIN := 32768;
    AUDIO_SAMP_RATE_8K := 8000;
    AUDIO_SAMP_RATE_12K := 12000;
    AUDIO_SAMP_RATE_16K := 16000;
    AUDIO_SAMP_RATE_24K := 24000;
    AUDIO_SAMP_RATE_32K := 32000;
    AUDIO_SAMP_RATE_48K := 48000;
    AUDIO_SAMP_RATE_96K := 96000;
    ENOTTY := 25;
    ERANGE := 34;
    ENOMEM := 12;
    SIZEOF_audio_buf_desc_s := 12;
    CONFIG_AUDIO_ES8388CHAR_RXTIMEOUT := 0;
    CONFIG_AUDIO_ES8388CHAR_TXTIMEOUT := 0;
    CONFIG_DEBUG := true
  |}.
  - solve_nodup.
  - solve_nodup.
  - solve_nodup.
  - solve_nodup.
  - lia.
Defined.

(** Collaborators that accept everything: the pool hands out buffer [k]
    at the [k]-th request, the transport accepts every transfer. *)
Definition willing_env : env :=
  mk_env (fun _ => 12) (fun k => k) 0 (fun _ => 0).

(** A pool that is out of memory (-ENOMEM). *)
Definition starved_env : env :=
  mk_env (fun _ => -12) (fun k => k) 0 (fun _ => 0).

(** A transport that rejects the transfer (-EBUSY). *)
Definition rejecting_env : env :=
  mk_env (fun _ => 12) (fun k => k) (-16) (fun _ => -16).

(** Requests used on the sample assignment. *)
Definition caps_volume (v : Z) : audio_caps_s :=
  mk_caps AUDIO_TYPE_FEATURE 0 AUDIO_FU_VOLUME v 0 0.

Definition caps_micgain (hw0 : Z) : audio_caps_s :=
  mk_caps AUDIO_TYPE_FEATURE 0 AUDIO_FU_MICGAIN hw0 0 0.

Definition caps_output (channels rate width : Z) : audio_caps_s :=
  mk_caps AUDIO_TYPE_OUTPUT channels 0 rate 0 width.

Definition configure_on (caps : audio_caps_s) (w : world) :=
  es8388char_ioctl AUDIOIOC_CONFIGURE (ArgCaps caps) willing_env w.

Definition no_buffer : audio_buf_desc_s := mk_bufdesc 0 None.

Definition ioctl_on (cmd : Z) (arg : ioctl_arg) (e : env) (w : world) :=
  es8388char_ioctl cmd arg e w.

(** An ioctl returned an error code. *)
Definition returns_error (o : outcome (Z * ioctl_arg)) : Prop :=
  match o with
  | Returns (r, _) _ => r < 0
  | _ => False
  end.

(** Two labels of a switch are different; kept as a name of its own so
    that the arithmetic procedures do not split on it. *)
Definition differ (a b : Z) : Prop := a <> b.

(** ** Further vocabulary for the properties *)

(** The stream and feature settings and the life-cycle flags of the
    device: every field that is not part of the buffer flow. *)
Definition settings (p : es8388char_dev_s)
  : Z * Z * Z * Z * Z * Z * bool * bool * bool * bool :=
  (samprate p, bpsamp p, nchannels p, volume p, balance p, micgain p,
   mute p, running p, paused p, terminating p).

(** The life-cycle flags alone. *)
Definition flags (p : es8388char_dev_s) : bool * bool * bool :=
  (running p, paused p, terminating p).

(** The ranges the guards of [es8388char_configure] keep the settings in. *)
Definition settings_in_range (p : es8388char_dev_s) : Prop :=
  0 <= volume p <= 63 /\
  -1000 <= balance p <= 1000 /\
  -16 <= micgain p <= 53 /\
  (nchannels p = 0 \/ nchannels p = 2).

(** [ac_controls.hw[0]] is a uint16_t. *)
Definition request_in_range (ev : event) : Prop :=
  match ev with
  | Ev_ioctl _ (ArgCaps caps) _ => 0 <= ac_controls_hw0 caps < 65536
  | _ => True
  end.

Section MoreRuns.
Context {H : Headers}.

Definition is_configure (ev : event) : bool :=
  match ev with
  | Ev_ioctl cmd _ _ => cmd =? AUDIOIOC_CONFIGURE
  | _ => false
  end.

(** A completion callback ran to its end. *)
Definition callback_returned
    (entry : event * outcome (option (Z * ioctl_arg))) : Prop :=
  match entry with
  | (Ev_rxcallback _ _, o) | (Ev_txcallback _ _, o) =>
      exists w, o = Returns None w
  | _ => True
  end.

(** Take one occurrence of [b] out of [l]; [None] when there is none. *)
Fixpoint take_out (b : ap_buffer) (l : list ap_buffer)
  : option (list ap_buffer) :=
  match l with
  | [] => None
  | x :: l' =>
      if Nat.eqb x b then Some l' else option_map (cons x) (take_out b l')
  end.

(** [held] are the buffers ALLOCBUFFER handed out whose transmit
    completion is still to come.  After one more entry: a successful
    ALLOCBUFFER adds its buffer, a transmit completion takes its buffer
    out, and the result is [None] when the completion is for a buffer
    that is not held. *)
Definition held_after (held : list ap_buffer)
    (entry : event * outcome (option (Z * ioctl_arg)))
  : option (list ap_buffer) :=
  match entry with
  | (Ev_ioctl cmd _ e, Returns (Some (r, _)) _) =>
      if (cmd =? AUDIOIOC_ALLOCBUFFER) && (0 <=? r)
      then Some (apb_alloc_buf e 0 :: held)
      else Some held
  | (Ev_txcallback apb _, _) => take_out apb held
  | _ => Some held
  end.

(** Every transmit completion of the history answers a buffer that
    ALLOCBUFFER handed out and that has not completed before: the
    transport calls back once for a send it accepted, and the buffers sent
    are the allocated ones. *)
Fixpoint completions_answer_allocations (held : list ap_buffer) (h : history)
  : bool :=
  match h with
  | [] => true
  | entry :: h' =>
      match held_after held entry with
      | Some held' => completions_answer_allocations held' h'
      | None => false
      end
  end.

(** One round of the pre-posting loop of AUDIOIOC_DEQUEUEBUFFER, from the
    point where the loop test has been passed. *)
Definition dequeue_round (e : env) (k : nat) (bufdesc : audio_buf_desc_s)
  : M (Z * audio_buf_desc_s) :=
  let bufdesc :=
    if numbytes bufdesc =? 0
    then mk_bufdesc (1024 * 16) (u_pBuffer bufdesc) else bufdesc in
  ra <- apb_alloc e k bufdesc ;;
  if fst ra <? 0 then ret (fst ra, bufdesc)
  else
    r' <- I2S_RECEIVE e k (snd ra) CONFIG_AUDIO_ES8388CHAR_RXTIMEOUT ;;
    if r' <? 0 then
      apb_free (Some (snd ra)) ;;;
      ret (r', bufdesc)
    else
      sem_wait SEM_rxsem ;;;
      modify_priv (fun p => set_rx_cnt (rx_cnt p + 1) p) ;;;
      sem_post SEM_rxsem ;;;
      ret (r', bufdesc).

(** The size DEQUEUEBUFFER asks the pool for. *)
Definition default_size (nbytes : Z) : Z :=
  if nbytes =? 0 then 1024 * 16 else nbytes.

(** The calls of [n] successful rounds of pre-posting, from round [k]. *)
Definition posted (e : env) (nbytes : Z) (k n : nat) : list ext_call :=
  flat_map
    (fun i =>
       [Call_apb_alloc nbytes (apb_alloc_ret e i) (Some (apb_alloc_buf e i));
        Call_I2S_RECEIVE (apb_alloc_buf e i)
          CONFIG_AUDIO_ES8388CHAR_RXTIMEOUT (i2s_receive_ret e i)])
    (seq k n).

End MoreRuns.

(** Buffers the pool handed out, and buffers given back to it. *)
Definition pool_handed_out (c : ext_call) : bool :=
  match c with
  | Call_apb_alloc _ _ (Some _) => true
  | _ => false
  end.

Definition pool_given_back (c : ext_call) : bool :=
  match c with
  | Call_apb_free _ => true
  | _ => false
  end.

(** ** Register access over I2C

    [es8388char_readreg], [es8388char_writereg], [es8388char_modifyreg] and
    [es8388char_i2c_script] talk to the codec through [i2c_write] and
    [i2c_read].  The bus is the sequence of operations issued on it so
    far; what the bus answers to its [n]-th operation comes from the
    environment.  [Call_modifyreg] and [Call_i2c_script_codec_init] of the
    driver trace above each stand for one call of the functions below. *)

Inductive bus_op : Type :=
| Bus_write (bytes : list Z) (ret : Z)
| Bus_read (len : Z) (data : Z) (ret : Z)
| Bus_delay (ms : Z).

Record i2c_env : Type := mk_i2c_env {
  i2c_write_ret : nat -> Z;     (* return value of the n-th operation *)
  i2c_read_ret : nat -> Z;
  i2c_read_data : nat -> Z      (* byte delivered by the n-th operation *)
}.


Definition i2c_write (e : i2c_env) (bytes : list Z) (bus : list bus_op)
  : Z * list bus_op :=
  let r := i2c_write_ret e (length bus) in
  (r, bus ++ [Bus_write bytes r]).

(** A one-byte read: return value, byte stored in the buffer, bus. *)
Definition i2c_read (e : i2c_env) (bus : list bus_op)
  : Z * Z * list bus_op :=
  let r := i2c_read_ret e (length bus) in
  let data := to_uint8 (i2c_read_data e (length bus)) in
  (r, data, bus ++ [Bus_read 1 data r]).


(** The byte read lands in [regaddr]; what is returned is [ret]. *)
Definition es8388char_readreg (e : i2c_env) (regaddr : Z) (bus : list bus_op)
  : Z * list bus_op :=
  let '(ret, bus) := i2c_write e [regaddr] bus in
  if ret <? 0 then (0, bus)
  else
    let '(ret, regaddr', bus) := i2c_read e bus in
    if ret <? 0 then (0, bus)
    else (to_uint8 ret, bus).

Definition es8388char_writereg (e : i2c_env) (regaddr regval : Z)
    (bus : list bus_op) : list bus_op :=
  snd (i2c_write e [regaddr; regval] bus).

Definition es8388char_modifyreg (e : i2c_env) (regaddr clear set : Z)
    (bus : list bus_op) : Z * list bus_op :=
  let '(data, bus) := es8388char_readreg e regaddr bus in
  let data := to_uint8 (Z.land data (Z.lnot clear)) in
  let data := to_uint8 (Z.lor data set) in
  let bus := es8388char_writereg e regaddr data bus in
  es8388char_readreg e regaddr bus.


(** The register writes seen on the bus (address, value), oldest first. *)
Definition reg_write_of (op : bus_op) : list (Z * Z) :=
  match op with
  | Bus_write [a; v] _ => [(a, v)]
  | _ => []
  end.

Definition reg_writes (bus : list bus_op) : list (Z * Z) :=
  flat_map reg_write_of bus.

(** The delays requested, oldest first. *)
Definition delay_of (op : bus_op) : list Z :=
  match op with
  | Bus_delay ms => [ms]
  | _ => []
  end.

Definition delays (bus : list bus_op) : list Z := flat_map delay_of bus.

(** More requests and environments on the sample assignment. *)
Definition caps_balance (hw0 : Z) : audio_caps_s :=
  mk_caps AUDIO_TYPE_FEATURE 0 AUDIO_FU_BALANCE hw0 0 0.

(** Feature unit 4 (bass) is not handled by the driver. *)
Definition caps_bass : audio_caps_s :=
  mk_caps AUDIO_TYPE_FEATURE 0 4 0 0 0.

Definition caps_processing : audio_caps_s :=
  mk_caps AUDIO_TYPE_PROCESSING 0 0 0 0 0.

(** A pool that hands out buffer [b], with a transport that accepts. *)
Definition handing_out (b : ap_buffer) : env :=
  mk_env (fun _ => 12) (fun _ => b) 0 (fun _ => 0).

(** A device with three receive buffers outstanding. *)
Definition three_posted : world := mk_world (set_rx_cnt 3 registered_dev) [].

(** A bus on which every transfer fails, and one on which every transfer
    succeeds and every read delivers 0xAA. *)
Definition dead_bus : i2c_env :=
  mk_i2c_env (fun _ => -5) (fun _ => -5) (fun _ => 0).

Definition live_bus : i2c_env :=
  mk_i2c_env (fun _ => 0) (fun _ => 0) (fun _ => 170).

(** * Properties *)

(** ** Labels of one switch are different *)

Lemma NoDup_cons_neq (a : Z) (l : list Z) :
  NoDup (a :: l) -> Forall (fun x => a <> x) l /\ NoDup l.
Proof.
  intros N. inversion N as [| ? ? Hin N']; subst. split; [| exact N'].
  apply Forall_forall. intros x Hx E. subst x. exact (Hin Hx).
Qed.

Ltac hide_neq :=
  repeat match goal with
         | D : ?a <> ?b :> Z |- _ => change (differ a b) in D
         end.

Ltac split_labels N :=
  repeat match type of N with
         | NoDup (_ :: _) =>
             let F := fresh "F" in
             apply NoDup_cons_neq in N; destruct N as [F N];
             repeat match type of F with
                    | Forall _ (_ :: _) =>
                        let L := fresh "Lbl" in
                        inversion F as [| ? ? L F']; subst; clear F;
                        rename F' into F
                    end;
             clear F
         end;
  clear N; hide_neq.

(** Decide the tests of a switch whose scrutinee is one of its labels. *)
Ltac decide_labels :=
  repeat match goal with
         | |- context [?a =? ?a] => rewrite (Z.eqb_refl a)
         | |- context [?a =? ?b] =>
             let Hne := fresh "Hne" in
             destruct (Z.eqb_spec a b) as [| Hne];
             [ exfalso; unfold differ in *; congruence | clear Hne ]
         end.

(** Run the monad's plumbing and the record projections, leaving integer
    arithmetic as written. *)
Ltac drv_unfold :=
  unfold sem_post, apb_free, bad_cast;
  unfold bind, ret, modify_priv, call, get_priv.

Ltac drv_simpl :=
  cbn [world_of halts priv trace fst snd sem_count sem_init
       rxedq rxsem cnt_rxsem rx_cnt alloc exclsem samprate bpsamp nchannels
       volume balance micgain running paused mute terminating
       set_rxedq set_rxsem set_cnt_rxsem set_rx_cnt set_alloc set_exclsem
       set_samprate set_bpsamp set_nchannels set_volume set_balance
       set_micgain set_mute numbytes u_pBuffer].

Ltac drv := drv_unfold; drv_simpl.

Section Basics.
Context {H : Headers}.

Lemma DEBUGASSERT_true : DEBUGASSERT true = ret tt.
Proof. unfold DEBUGASSERT, ret. destruct CONFIG_DEBUG; reflexivity. Qed.

Lemma ioctl_is_configure (caps : audio_caps_s) (e : env) :
  es8388char_ioctl AUDIOIOC_CONFIGURE (ArgCaps caps) e =
  bind (es8388char_configure caps) (fun r => ret (r, ArgCaps caps)).
Proof.
  pose proof ioctl_labels as N. split_labels N.
  unfold es8388char_ioctl. rewrite DEBUGASSERT_true.
  decide_labels. reflexivity.
Qed.

End Basics.

(** ** Configure *)

Section Configure.
Context {H : Headers}.

Lemma volume_register_range (v : Z) :
  0 <= v <= 1000 ->
  to_uint8 (63 - Z.quot (63 * v) 1000) = 63 - 63 * v / 1000 /\
  0 <= 63 - 63 * v / 1000 <= 63.
Proof.
  intros Hv. rewrite Z.quot_div_nonneg by lia.
  assert (0 <= 63 * v / 1000 <= 63) as Hq.
  { split; [ apply Z.div_pos; lia | apply Z.div_le_upper_bound; lia ]. }
  unfold to_uint8. rewrite Z.mod_small by lia. lia.
Qed.

(** C6: Configure(volume, v).  For v > 1000 the request is dropped: the
    call returns with the device, and so the stored volume, exactly as
    before.  For 0 <= v <= 1000 the stored volume becomes 63 - 63*v/1000
    (truncating division), a value in 0..63; nothing else changes. *)
Theorem configure_volume_scaling (w : world) (caps : audio_caps_s) (e : env) :
  ac_type caps = AUDIO_TYPE_FEATURE ->
  ac_format_hw caps = AUDIO_FU_VOLUME ->
  let v := ac_controls_hw0 caps in
  (1000 < v ->
   es8388char_ioctl AUDIOIOC_CONFIGURE (ArgCaps caps) e w =
     Returns (OK, ArgCaps caps) w) /\
  (0 <= v <= 1000 ->
   es8388char_ioctl AUDIOIOC_CONFIGURE (ArgCaps caps) e w =
     Returns (OK, ArgCaps caps)
       (mk_world (set_volume (63 - 63 * v / 1000) (priv w)) (trace w)) /\
   0 <= 63 - 63 * v / 1000 <= 63).
Proof.
  intros Ht Hf v. subst v.
  rewrite ioctl_is_configure. unfold es8388char_configure.
  rewrite DEBUGASSERT_true, Ht, Hf, !Z.eqb_refl.
  split; intros Hv.
  - destruct (Z.leb_spec (ac_controls_hw0 caps) 1000); [ lia | ].
    reflexivity.
  - destruct (Z.leb_spec (ac_controls_hw0 caps) 1000); [ | lia ].
    destruct (volume_register_range _ Hv) as [E R].
    unfold bind, modify_priv, es8388char_setvolume, get_priv, ret.
    rewrite E. split; [ reflexivity | lia ].
Qed.

(** C7: Configure(micGain, g), g being the request read as an int16_t.
    For g in [-16, 53] the stored gain becomes g.  For any other g the call
    returns OK (no error) and the device, its gain included, is as before. *)
Theorem configure_micgain_range (w : world) (caps : audio_caps_s) (e : env) :
  ac_type caps = AUDIO_TYPE_FEATURE ->
  ac_format_hw caps = AUDIO_FU_MICGAIN ->
  let g := to_int16 (ac_controls_hw0 caps) in
  (-16 <= g <= 53 ->
   es8388char_ioctl AUDIOIOC_CONFIGURE (ArgCaps caps) e w =
     Returns (OK, ArgCaps caps)
             (mk_world (set_micgain g (priv w)) (trace w))) /\
  (~ (-16 <= g <= 53) ->
   es8388char_ioctl AUDIOIOC_CONFIGURE (ArgCaps caps) e w =
     Returns (OK, ArgCaps caps) w).
Proof.
  intros Ht Hf g.
  pose proof fu_labels as N. split_labels N.
  rewrite ioctl_is_configure. unfold es8388char_configure.
  rewrite DEBUGASSERT_true, Ht, Hf, Z.eqb_refl.
  decide_labels. fold g.
  split; intros Hg.
  - replace ((-16 <=? g) && (g <=? 53)) with true; [ reflexivity | ].
    symmetry. apply andb_true_iff. split; apply Z.leb_le; lia.
  - replace ((-16 <=? g) && (g <=? 53)) with false; [ reflexivity | ].
    symmetry. apply andb_false_iff.
    destruct (Z.leb_spec (-16) g); [ right | left; reflexivity ].
    apply Z.leb_gt. lia.
Qed.

(** C8: an output-format Configure with a channel count other than 2
    returns -ERANGE, a negative value, and leaves the device as it was:
    every field of the device structure is unchanged and no collaborator
    has been called. *)
Theorem configure_output_channels (w : world) (caps : audio_caps_s) (e : env) :
  ac_type caps = AUDIO_TYPE_OUTPUT ->
  ac_channels caps <> 2 ->
  es8388char_ioctl AUDIOIOC_CONFIGURE (ArgCaps caps) e w =
    Returns (- ERANGE, ArgCaps caps) w /\
  - ERANGE < 0.
Proof.
  intros Ht Hc.
  pose proof type_labels as N. split_labels N.
  pose proof errno_positive as P.
  rewrite ioctl_is_configure. unfold es8388char_configure.
  rewrite DEBUGASSERT_true, Ht.
  decide_labels.
  destruct (Z.eqb_spec (ac_channels caps) 2); [ contradiction | ].
  split; [ reflexivity | lia ].
Qed.

(** An output-format Configure with two channels stores whatever rate was
    requested and returns OK; a rate outside the seven known ones only
    skips the codec programming. *)
Lemma configure_output_stores_any_rate
    (w : world) (caps : audio_caps_s) (e : env) :
  ac_type caps = AUDIO_TYPE_OUTPUT ->
  ac_channels caps = 2 ->
  FsRatio_of (to_uint32 (ac_controls_hw0 caps)) = None ->
  es8388char_ioctl AUDIOIOC_CONFIGURE (ArgCaps caps) e w =
    Returns (OK, ArgCaps caps)
      (mk_world
         (set_bpsamp (to_uint8 (ac_controls_b2 caps))
            (set_nchannels 2
               (set_samprate (to_uint32 (ac_controls_hw0 caps)) (priv w))))
         (trace w ++ [Call_I2S_TXDATAWIDTH (to_uint8 (ac_controls_b2 caps))])).
Proof.
  intros Ht Hc Hr.
  pose proof type_labels as N. split_labels N.
  rewrite ioctl_is_configure. unfold es8388char_configure.
  rewrite DEBUGASSERT_true, Ht, Hc.
  decide_labels.
  unfold bind, modify_priv, es8388char_setdatawidth, es8388char_setbitrate,
    get_priv, call, ret. cbn. rewrite Hr. reflexivity.
Qed.

End Configure.

(** *** Configure on concrete requests *)

(** Volume 1001 leaves the registered device alone; volume 500 stores
    63 - 31 = 32. *)
Lemma configure_volume_scaling_witness :
  configure_on (caps_volume 1001) boot =
    Returns (OK, ArgCaps (caps_volume 1001)) boot /\
  volume (priv (world_of (configure_on (caps_volume 500) boot))) = 32.
Proof.
  unfold configure_on. split.
  - apply (proj1 (configure_volume_scaling boot (caps_volume 1001) willing_env
                    eq_refl eq_refl)).
    vm_compute. reflexivity.
  - destruct (proj2 (configure_volume_scaling boot (caps_volume 500) willing_env
                       eq_refl eq_refl)) as [E _].
    + vm_compute. split; discriminate.
    + rewrite E. vm_compute. reflexivity.
Defined.

(** Mic gain 60 on a device whose gain is 0 returns OK and the gain is
    still 0; the request 65520 is -16 as an int16_t and is stored. *)
Lemma configure_micgain_range_witness :
  configure_on (caps_micgain 60) boot = Returns (OK, ArgCaps (caps_micgain 60)) boot /\
  micgain (priv boot) = 0 /\
  micgain (priv (world_of (configure_on (caps_micgain 65520) boot))) = -16.
Proof.
  split; [| split].
  - apply (proj2 (configure_micgain_range boot (caps_micgain 60) willing_env
                    eq_refl eq_refl)).
    cbn. lia.
  - reflexivity.
  - unfold configure_on.
    rewrite (proj1 (configure_micgain_range boot (caps_micgain 65520) willing_env
                      eq_refl eq_refl)).
    + reflexivity.
    + cbn. lia.
Defined.

(** A mono request on the registered device. *)
Lemma configure_output_channels_witness :
  configure_on (caps_output 1 48000 16) boot =
    Returns (-34, ArgCaps (caps_output 1 48000 16)) boot.
Proof.
  apply (proj1 (configure_output_channels boot (caps_output 1 48000 16)
                  willing_env eq_refl ltac:(cbn; lia))).
Defined.

(** C4 (what the code does): a stereo output-format Configure asking for
    44100, which is none of the seven rates of [es8388char_setbitrate],
    returns OK and leaves 44100 in [samprate]; only the data width has been
    passed on to the I2S lower half. *)
Theorem configure_accepts_unsupported_rate :
  FsRatio_of 44100 = None /\
  configure_on (caps_output 2 44100 16) boot =
    Returns (OK, ArgCaps (caps_output 2 44100 16))
      (mk_world (set_bpsamp 16 (set_nchannels 2 (set_samprate 44100 registered_dev)))
                [Call_I2S_TXDATAWIDTH 16]) /\
  samprate (priv (world_of (configure_on (caps_output 2 44100 16) boot))) = 44100.
Proof.
  split; [ reflexivity | ].
  split; [ | reflexivity ].
  apply (configure_output_stores_any_rate boot (caps_output 2 44100 16)
           willing_env eq_refl eq_refl eq_refl).
Qed.

(** ** The dispatcher *)

Section Dispatcher.
Context {H : Headers}.

Lemma ioctl_is_allocbuffer (bufdesc : audio_buf_desc_s) (e : env) :
  es8388char_ioctl AUDIOIOC_ALLOCBUFFER (ArgBufDesc bufdesc) e =
  bind (sem_wait SEM_alloc) (fun _ =>
  bind (apb_alloc e 0 bufdesc) (fun ra => ret (fst ra, ArgBufDesc bufdesc))).
Proof.
  unfold es8388char_ioctl. rewrite DEBUGASSERT_true, Z.eqb_refl. reflexivity.
Qed.

Lemma ioctl_is_enqueuebuffer (bufdesc : audio_buf_desc_s) (e : env) :
  es8388char_ioctl AUDIOIOC_ENQUEUEBUFFER (ArgBufDesc bufdesc) e =
  bind (I2S_SEND e (u_pBuffer bufdesc) CONFIG_AUDIO_ES8388CHAR_TXTIMEOUT)
       (fun r => ret (r, ArgBufDesc bufdesc)).
Proof.
  pose proof ioctl_labels as N. split_labels N.
  unfold es8388char_ioctl. rewrite DEBUGASSERT_true.
  decide_labels. reflexivity.
Qed.

(** A failed pool allocation behind the gate: the pool's error is returned
    and the slot taken by [sem_wait(&priv->alloc)] stays taken. *)
Lemma allocbuffer_pool_failure
    (w : world) (bufdesc : audio_buf_desc_s) (e : env) :
  0 < alloc (priv w) ->
  apb_alloc_ret e 0 < 0 ->
  es8388char_ioctl AUDIOIOC_ALLOCBUFFER (ArgBufDesc bufdesc) e w =
    Returns (apb_alloc_ret e 0, ArgBufDesc bufdesc)
      (mk_world (set_alloc (alloc (priv w) - 1) (priv w))
                (trace w ++ [Call_apb_alloc (numbytes bufdesc)
                                            (apb_alloc_ret e 0) None])).
Proof.
  intros Hfree Hfail.
  rewrite ioctl_is_allocbuffer.
  unfold bind, sem_wait, apb_alloc, call, ret. cbn [sem_count sem_init].
  destruct (Z.ltb_spec 0 (alloc (priv w))); [ | lia ].
  cbn [priv trace fst].
  destruct (Z.ltb_spec (apb_alloc_ret e 0) 0); [ reflexivity | lia ].
Qed.

(** C2 (as the code has it): when the transport rejects the send,
    ENQUEUEBUFFER returns the transport's error at once and the device
    structure is untouched, so the gate holds as many slots as before; the
    buffer is not freed either.  A slot is given back by the transmit
    completion callback, and only there. *)
Theorem enqueue_rejection_keeps_slot
    (w : world) (bufdesc : audio_buf_desc_s) (e : env) :
  i2s_send_ret e < 0 ->
  es8388char_ioctl AUDIOIOC_ENQUEUEBUFFER (ArgBufDesc bufdesc) e w =
    Returns (i2s_send_ret e, ArgBufDesc bufdesc)
      (mk_world (priv w)
         (trace w ++ [Call_I2S_SEND (u_pBuffer bufdesc)
                        CONFIG_AUDIO_ES8388CHAR_TXTIMEOUT (i2s_send_ret e)])) /\
  in_use (world_of
    (es8388char_ioctl AUDIOIOC_ENQUEUEBUFFER (ArgBufDesc bufdesc) e w)) =
    in_use w /\
  (forall apb result,
     in_use (world_of (es8388char_txcallback apb result w)) = in_use w - 1).
Proof.
  intros _. rewrite ioctl_is_enqueuebuffer.
  split; [ reflexivity | split; [ reflexivity | ] ].
  intros apb result. unfold es8388char_txcallback.
  rewrite DEBUGASSERT_true. unfold in_use. drv. lia.
Qed.

(** C5 (as the code has it): Start and Stop are placeholders.  From every
    state of the device each of them returns OK and changes nothing; no
    order of Configure, Start and Stop is refused. *)
Theorem start_stop_always_OK (w : world) (arg : ioctl_arg) (e : env) :
  es8388char_ioctl AUDIOIOC_START arg e w = Returns (OK, arg) w /\
  es8388char_ioctl AUDIOIOC_STOP arg e w = Returns (OK, arg) w.
Proof.
  pose proof ioctl_labels as N. split_labels N.
  unfold es8388char_ioctl. rewrite DEBUGASSERT_true.
  split; decide_labels; reflexivity.
Qed.

(** C10: a command code that is none of the seven labels of the switch
    reaches [default]: the call returns 0, the device structure and the
    structure behind [arg] are unchanged and no collaborator is called. *)
Theorem ioctl_unknown_command
    (w : world) (cmd : Z) (arg : ioctl_arg) (e : env) :
  ~ In cmd [AUDIOIOC_ALLOCBUFFER; AUDIOIOC_FREEBUFFER; AUDIOIOC_ENQUEUEBUFFER;
            AUDIOIOC_DEQUEUEBUFFER; AUDIOIOC_CONFIGURE; AUDIOIOC_START;
            AUDIOIOC_STOP] ->
  es8388char_ioctl cmd arg e w = Returns (0, arg) w.
Proof.
  intros Hcmd. unfold es8388char_ioctl. rewrite DEBUGASSERT_true.
  repeat match goal with
         | |- context [cmd =? ?l] =>
             destruct (Z.eqb_spec cmd l);
             [ exfalso; apply Hcmd; subst cmd; cbn; tauto | ]
         end.
  reflexivity.
Qed.

End Dispatcher.

(** *** The dispatcher on concrete calls *)

(** C1 (what the code does): ALLOCBUFFER on the registered device with a
    pool that is out of memory returns the pool's error -12, and one of
    the eight slots is in use afterwards although none was before and no
    buffer was handed out. *)
Theorem allocbuffer_failure_leaks_slot :
  in_use boot = 0 /\
  ioctl_on AUDIOIOC_ALLOCBUFFER (ArgBufDesc no_buffer) starved_env boot =
    Returns (-12, ArgBufDesc no_buffer)
      (mk_world (set_alloc 7 registered_dev) [Call_apb_alloc 0 (-12) None]) /\
  in_use (world_of
    (ioctl_on AUDIOIOC_ALLOCBUFFER (ArgBufDesc no_buffer) starved_env boot)) = 1.
Proof. split; [ | split ]; vm_compute; reflexivity. Qed.

(** Eight failed allocations use up the gate: the ninth call suspends. *)
Lemma allocbuffer_failures_exhaust_gate :
  let failed := Ev_ioctl AUDIOIOC_ALLOCBUFFER (ArgBufDesc no_buffer) starved_env in
  let w8 := fst (run boot (repeat failed 8)) in
  in_use w8 = 8 /\
  step w8 failed = Blocks w8.
Proof. split; vm_compute; reflexivity. Qed.

(** One buffer allocated, then its send rejected with -EBUSY: one slot in
    use before the ENQUEUEBUFFER and one after. *)
Lemma enqueue_rejection_keeps_slot_witness :
  let w1 := world_of (ioctl_on AUDIOIOC_ALLOCBUFFER (ArgBufDesc no_buffer)
                               willing_env boot) in
  in_use w1 = 1 /\
  in_use (world_of (ioctl_on AUDIOIOC_ENQUEUEBUFFER
                      (ArgBufDesc (mk_bufdesc 0 (Some 0%nat))) rejecting_env w1)) = 1.
Proof.
  intros w1. split; [ vm_compute; reflexivity | ].
  destruct (enqueue_rejection_keeps_slot w1 (mk_bufdesc 0 (Some 0%nat))
              rejecting_env ltac:(cbn; lia)) as [_ [E _]].
  exact E.
Defined.

(** C2 (the claim fails): a buffer is allocated on the registered device
    (one slot in use) and the transport rejects its ENQUEUEBUFFER.  The call
    returns the error, and the slot is still in use, not released.  Done
    eight times, this leaves all eight slots in use and the next
    ALLOCBUFFER suspends. *)
Lemma enqueue_rejection_does_not_release :
  let alloc_ok := Ev_ioctl AUDIOIOC_ALLOCBUFFER (ArgBufDesc no_buffer) willing_env in
  let enqueue_rejected :=
    Ev_ioctl AUDIOIOC_ENQUEUEBUFFER (ArgBufDesc (mk_bufdesc 0 (Some 0%nat)))
             rejecting_env in
  let w1 := fst (run boot [alloc_ok]) in
  let w2 := fst (run boot [alloc_ok; enqueue_rejected]) in
  let w16 := fst (run boot (concat (repeat [alloc_ok; enqueue_rejected] 8))) in
  in_use w1 = 1 /\
  returns_error (ioctl_on AUDIOIOC_ENQUEUEBUFFER
                   (ArgBufDesc (mk_bufdesc 0 (Some 0%nat))) rejecting_env w1) /\
  in_use w2 = 1 /\
  in_use w2 <> in_use w1 - 1 /\
  in_use w16 = 8 /\
  step w16 alloc_ok = Blocks w16.
Proof.
  cbv zeta. repeat apply conj; vm_compute; congruence.
Qed.

(** C5 (the claim fails): Start on the freshly registered device, before
    any Configure, does not return an error; neither does a second Stop. *)
Lemma start_from_idle_not_refused :
  let after ev w := fst (run w [ev]) in
  let start := Ev_ioctl AUDIOIOC_START (ArgWord 0) willing_env in
  let stop := Ev_ioctl AUDIOIOC_STOP (ArgWord 0) willing_env in
  ~ returns_error (ioctl_on AUDIOIOC_START (ArgWord 0) willing_env boot) /\
  ioctl_on AUDIOIOC_START (ArgWord 0) willing_env boot =
    Returns (OK, ArgWord 0) boot /\
  ~ returns_error (ioctl_on AUDIOIOC_STOP (ArgWord 0) willing_env
                     (after stop (after start boot))) /\
  ioctl_on AUDIOIOC_STOP (ArgWord 0) willing_env (after stop (after start boot)) =
    Returns (OK, ArgWord 0) boot.
Proof.
  cbv zeta. repeat apply conj; vm_compute; try reflexivity;
    intros Hlt; discriminate Hlt.
Qed.

(** Command code 0 on the registered device. *)
Lemma ioctl_unknown_command_witness :
  ioctl_on 0 (ArgWord 7) willing_env boot = Returns (0, ArgWord 7) boot.
Proof.
  apply (ioctl_unknown_command boot 0 (ArgWord 7) willing_env).
  cbn. intuition discriminate.
Defined.

(** ** Runs: the gate and the queue *)

Section RunInvariants.
Context {H : Headers}.

Lemma sem_wait_free (s : sem_id) (w : world) :
  0 < sem_count s (priv w) ->
  sem_wait s w =
    Returns tt (mk_world (sem_init s (sem_count s (priv w) - 1) (priv w))
                         (trace w)).
Proof.
  intros Hfree. unfold sem_wait.
  destruct (Z.ltb_spec 0 (sem_count s (priv w))); [ reflexivity | lia ].
Qed.

Lemma sem_wait_busy (s : sem_id) (w : world) :
  sem_count s (priv w) <= 0 ->
  sem_wait s w = Blocks w.
Proof.
  intros Hbusy. unfold sem_wait.
  destruct (Z.ltb_spec 0 (sem_count s (priv w))); [ lia | reflexivity ].
Qed.

Lemma dequeue_prepost_eq (fuel : nat) (e : env) (k : nat) (r : Z)
    (bufdesc : audio_buf_desc_s) (w : world) :
  dequeue_prepost fuel e k r bufdesc w =
  if rx_cnt (priv w) <? ES8388CHAR_RXBUF_CNT then
    match fuel with
    | O => Unfinished w
    | S fuel' =>
        let bufdesc :=
          if numbytes bufdesc =? 0
          then mk_bufdesc (1024 * 16) (u_pBuffer bufdesc) else bufdesc in
        bind (apb_alloc e k bufdesc) (fun ra =>
          if fst ra <? 0 then ret (fst ra, bufdesc)
          else
            bind (I2S_RECEIVE e k (snd ra) CONFIG_AUDIO_ES8388CHAR_RXTIMEOUT)
              (fun r' =>
                 if r' <? 0 then
                   bind (apb_free (Some (snd ra))) (fun _ => ret (r', bufdesc))
                 else
                   bind (sem_wait SEM_rxsem) (fun _ =>
                   bind (modify_priv (fun p => set_rx_cnt (rx_cnt p + 1) p))
                     (fun _ =>
                   bind (sem_post SEM_rxsem) (fun _ =>
                   dequeue_prepost fuel' e (S k) r' bufdesc))))) w
    end
  else Returns (r, bufdesc) w.
Proof.
  destruct fuel; cbn [dequeue_prepost]; unfold bind at 1, get_priv;
    destruct (rx_cnt (priv w) <? ES8388CHAR_RXBUF_CNT); reflexivity.
Qed.

(** The pre-posting loop ends, whatever the pool and the transport answer,
    and touches neither the queue nor a semaphore count. *)
Lemma dequeue_prepost_returns (fuel : nat) :
  forall (e : env) (k : nat) (r : Z) (bufdesc : audio_buf_desc_s) (w : world),
    rxsem (priv w) = 1 ->
    ES8388CHAR_RXBUF_CNT - rx_cnt (priv w) <= Z.of_nat fuel ->
    exists r' b' w',
      dequeue_prepost fuel e k r bufdesc w = Returns (r', b') w' /\
      rxedq (priv w') = rxedq (priv w) /\
      rxsem (priv w') = 1 /\
      cnt_rxsem (priv w') = cnt_rxsem (priv w) /\
      alloc (priv w') = alloc (priv w).
Proof.
  induction fuel as [| fuel IH]; intros e k r bufdesc w Hsem Hfuel;
    rewrite dequeue_prepost_eq;
    destruct (Z.ltb_spec (rx_cnt (priv w)) ES8388CHAR_RXBUF_CNT) as [Hlt | Hge];
    try (do 3 eexists; split; [ reflexivity | tauto ]).
  - lia.
  - cbv zeta. unfold apb_alloc, I2S_RECEIVE. drv.
    destruct (apb_alloc_ret e k <? 0).
    { do 3 eexists. split; [ reflexivity | drv_simpl; tauto ]. }
    destruct (i2s_receive_ret e k <? 0).
    { do 3 eexists. split; [ reflexivity | drv_simpl; tauto ]. }
    rewrite sem_wait_free by (drv_simpl; lia).
    drv_simpl. rewrite Hsem.
    match goal with
    | |- exists r' b' w', dequeue_prepost ?f ?e ?k ?r ?b ?w0 = _ /\ _ =>
        destruct (IH e k r b w0) as (r' & b' & w' & E & Hq & Hs & Hc & Ha);
        [ drv_simpl; lia | drv_simpl; lia | ]
    end.
    exists r', b', w'. split; [ exact E | ].
    revert Hq Hs Hc Ha. drv_simpl. tauto.
Qed.

Ltac close_effect :=
  unfold entry_effect, gate_queue_inv, dequeued_by, completed_by,
    passed_gate, tx_completion;
  drv_simpl; decide_labels;
  cbn [andb map app length];
  rewrite ?app_nil_r;
  repeat apply conj;
  try assumption; try reflexivity; try discriminate; try lia.

Lemma dequeue_take_effect (w : world) (bufdesc : audio_buf_desc_s) :
  gate_queue_inv w ->
  (cnt_rxsem (priv w) <= 0 /\ dequeue_take bufdesc w = Blocks w) \/
  (exists apb q,
     rxedq (priv w) = apb :: q /\
     dequeue_take bufdesc w =
       Returns (0, ArgBufDesc (mk_bufdesc (numbytes bufdesc) (Some apb)))
         (mk_world
            (set_rxsem 1
               (set_rxedq q
                  (set_rxsem 0
                     (set_cnt_rxsem (cnt_rxsem (priv w) - 1) (priv w)))))
            (trace w))).
Proof.
  intros (Hs & Hc & Ha). unfold dequeue_take.
  destruct (Z.ltb_spec 0 (cnt_rxsem (priv w))) as [Hfree | Hbusy].
  - right. destruct (rxedq (priv w)) as [| apb q] eqn:Eq.
    { cbn [length] in Hc. lia. }
    exists apb, q. split; [ reflexivity | ].
    unfold bind at 1. rewrite (sem_wait_free SEM_cnt_rxsem) by exact Hfree.
    unfold bind at 1. rewrite sem_wait_free by (drv_simpl; lia).
    drv. rewrite Eq, Hs. reflexivity.
  - left. split; [ exact Hbusy | ].
    unfold bind at 1. rewrite sem_wait_busy by exact Hbusy. reflexivity.
Qed.

(** Configure always returns and stays away from the queue and from the
    semaphores. *)
Lemma configure_frame (caps : audio_caps_s) (w : world) :
  exists r w',
    es8388char_configure caps w = Returns r w' /\
    rxedq (priv w') = rxedq (priv w) /\
    rxsem (priv w') = rxsem (priv w) /\
    cnt_rxsem (priv w') = cnt_rxsem (priv w) /\
    alloc (priv w') = alloc (priv w) /\
    rx_cnt (priv w') = rx_cnt (priv w).
Proof.
  unfold es8388char_configure, es8388char_setvolume, es8388char_setmic,
    es8388char_setdatawidth, es8388char_setbitrate.
  rewrite DEBUGASSERT_true. drv.
  repeat match goal with
         | |- context [if ?c then _ else _] => destruct c; drv_simpl
         | |- context [match FsRatio_of ?x with _ => _ end] =>
             destruct (FsRatio_of x); drv_simpl
         end;
    do 2 eexists; (split; [ reflexivity | drv_simpl; tauto ]).
Qed.

Lemma step_effect (w : world) (ev : event) :
  gate_queue_inv w -> entry_effect w (ev, step w ev).
Proof.
  intros Hinv. pose proof Hinv as (Hs & Hc & Ha).
  pose proof ioctl_labels as N. split_labels N.
  destruct ev as [cmd arg e | bufdesc | apb result | apb result]; unfold step.
  - unfold es8388char_ioctl. rewrite DEBUGASSERT_true.
    destruct (Z.eqb_spec cmd AUDIOIOC_ALLOCBUFFER) as [-> | ?]; hide_neq.
    { unfold bind, ret.
      destruct (Z.ltb_spec 0 (alloc (priv w))) as [Hfree | Hbusy].
      - rewrite (sem_wait_free SEM_alloc) by exact Hfree.
        destruct arg; unfold apb_alloc; drv; close_effect.
      - rewrite (sem_wait_busy SEM_alloc) by exact Hbusy.
        close_effect. }
    destruct (Z.eqb_spec cmd AUDIOIOC_FREEBUFFER) as [-> | ?]; hide_neq.
    { destruct arg; [ | drv; close_effect .. ].
      unfold DEBUGASSERT. drv.
      destruct (CONFIG_DEBUG && _); [ close_effect | ].
      drv_simpl.
      destruct (CONFIG_DEBUG && _); [ close_effect | ].
      rewrite sem_wait_free by (drv_simpl; lia).
      drv_simpl. close_effect. }
    destruct (Z.eqb_spec cmd AUDIOIOC_ENQUEUEBUFFER) as [-> | ?]; hide_neq.
    { destruct arg; unfold I2S_SEND; drv; close_effect. }
    destruct (Z.eqb_spec cmd AUDIOIOC_DEQUEUEBUFFER) as [-> | ?]; hide_neq.
    { destruct arg as [b | c | v]; [ | drv; close_effect .. ].
      unfold bind, get_priv, ret.
      destruct (dequeue_prepost_returns
                  (Z.to_nat (ES8388CHAR_RXBUF_CNT - rx_cnt (priv w)))
                  e 0%nat 0 b w Hs ltac:(lia))
        as (r' & b' & w' & E & Hq & Hs' & Hc' & Ha').
      rewrite E. cbn [fst snd].
      assert (gate_queue_inv w') as Hinv'.
      { unfold gate_queue_inv. rewrite Hs', Hc', Hq, Ha'. tauto. }
      destruct (Z.leb_spec 0 r').
      - destruct (dequeue_take_effect w' (mk_bufdesc (numbytes b') None) Hinv')
          as [[Hbusy Eb] | (apb & q & Eq & Et)].
        + rewrite Eb. close_effect; rewrite ?Hq; try reflexivity; lia.
        + rewrite Et. rewrite Hq in Eq.
          close_effect; rewrite ?Eq in *; cbn [length map app] in *;
            try reflexivity; lia.
      - unfold ret.
        destruct (Z.eqb_spec r' 0); [ lia | ].
        close_effect; rewrite ?Hq; try reflexivity; lia. }
    destruct (Z.eqb_spec cmd AUDIOIOC_CONFIGURE) as [-> | ?]; hide_neq.
    { destruct arg as [b | caps | v]; [ drv; close_effect | | drv; close_effect ].
      destruct (configure_frame caps w) as (r & w' & E & Hq & Hs' & Hc' & Ha' & _).
      unfold bind, ret. rewrite E.
      close_effect; rewrite ?Hq, ?Hs', ?Hc', ?Ha'; try reflexivity; lia. }
    destruct (Z.eqb_spec cmd AUDIOIOC_START) as [-> | ?]; hide_neq.
    { unfold es8388char_start. destruct arg; drv; close_effect. }
    destruct (Z.eqb_spec cmd AUDIOIOC_STOP) as [-> | ?]; hide_neq.
    { unfold es8388char_stop. destruct arg; drv; close_effect. }
    destruct arg; drv; close_effect.
  - destruct (dequeue_take_effect w bufdesc Hinv)
      as [[Hbusy Eb] | (apb & q & Eq & Et)]; unfold bind.
    + rewrite Eb. close_effect.
    + rewrite Et. unfold ret.
      close_effect; rewrite ?Eq in *; cbn [length map app] in *;
        try reflexivity; lia.
  - unfold es8388char_rxcallback. rewrite DEBUGASSERT_true.
    unfold bind at 1 2 3. unfold ret at 1.
    rewrite sem_wait_free by (drv_simpl; lia).
    unfold dq_addlast. drv. rewrite Hs.
    close_effect.
    + rewrite length_app. cbn [length]. lia.
    + rewrite map_app. reflexivity.
  - unfold es8388char_txcallback. rewrite DEBUGASSERT_true.
    drv. close_effect.
Qed.

Lemma count_of_cons {A} (f : A -> bool) (x : A) (l : list A) :
  count_of f (x :: l) = (if f x then 1 else 0) + count_of f l.
Proof.
  unfold count_of. cbn [filter]. destruct (f x); cbn [length]; lia.
Qed.

Lemma boot_inv : gate_queue_inv boot.
Proof.
  unfold gate_queue_inv.
  repeat apply conj; vm_compute; [ reflexivity | reflexivity | discriminate ].
Qed.

(** The effect of a whole run, from any state in which no entry is in
    progress. *)
Lemma run_effect (evs : list event) :
  forall w : world,
    gate_queue_inv w ->
    gate_queue_inv (fst (run w evs)) /\
    map Some (rxedq (priv w)) ++ map Some (completed (snd (run w evs))) =
      dequeued (snd (run w evs)) ++ map Some (rxedq (priv (fst (run w evs)))) /\
    alloc (priv (fst (run w evs))) =
      alloc (priv w) - count_of passed_gate (snd (run w evs))
                     + count_of tx_completion (snd (run w evs)) /\
    Forall (fun entry => forall w'', snd entry <> Unfinished w'')
           (snd (run w evs)).
Proof.
  induction evs as [| ev evs IH]; intros w Hinv.
  - cbn [run fst snd]. unfold completed, dequeued, count_of.
    cbn [flat_map filter length map app]. rewrite app_nil_r.
    split; [ exact Hinv | ].
    split; [ reflexivity | ].
    split; [ lia | constructor ].
  - cbn [run].
    destruct (step_effect w ev Hinv) as (Hinv' & Hq & Ha & Hfin).
    cbn [snd] in Hinv', Hq, Ha, Hfin.
    destruct (halts (step w ev)).
    + cbn [fst snd]. unfold completed, dequeued. cbn [flat_map].
      rewrite !count_of_cons, !app_nil_r. unfold count_of.
      cbn [filter length].
      split; [ exact Hinv' | ].
      split; [ exact Hq | ].
      split; [ lia | ].
      constructor; [ exact Hfin | constructor ].
    + cbn [fst snd].
      destruct (IH (world_of (step w ev)) Hinv') as (Hinv'' & Hq' & Ha' & Hfin').
      unfold completed, dequeued in *. cbn [flat_map].
      rewrite !count_of_cons.
      split; [ exact Hinv'' | ].
      split; [ | split; [ lia | ] ].
      * rewrite map_app, app_assoc, Hq, <- !app_assoc. f_equal. exact Hq'.
      * constructor; [ exact Hfin | exact Hfin' ].
Qed.

(** C9: in every run of the registered device, whatever the order of
    ioctls, resumed dequeues and completion callbacks, the buffers handed
    out by DEQUEUEBUFFER followed by the buffers still queued are exactly
    the buffers completed by the receive callback, in completion order.  So
    buffers leave in the order they arrived and NULL is never handed out. *)
Theorem rx_queue_is_fifo (evs : list event) :
  map Some (completed (snd (run boot evs))) =
    dequeued (snd (run boot evs)) ++
    map Some (rxedq (priv (fst (run boot evs)))).
Proof.
  destruct (run_effect evs boot boot_inv) as (_ & Hq & _).
  exact Hq.
Qed.

(** The accounting of the gate: in every run of the registered device the
    number of gate slots in use is at most 8, and it equals the number of
    ALLOCBUFFER calls that got past the gate less the number of transmit
    completion callbacks. *)
Lemma gate_in_use_bounds (evs : list event) :
  in_use (fst (run boot evs)) <= ES8388CHAR_TXBUF_CNT /\
  in_use (fst (run boot evs)) =
    count_of passed_gate (snd (run boot evs)) -
    count_of tx_completion (snd (run boot evs)) /\
  (0 <= in_use (fst (run boot evs)) <->
   count_of tx_completion (snd (run boot evs)) <=
   count_of passed_gate (snd (run boot evs))).
Proof.
  destruct (run_effect evs boot boot_inv) as ((_ & _ & Hge) & _ & Ha & _).
  unfold in_use. rewrite Ha.
  change (alloc (priv boot)) with ES8388CHAR_TXBUF_CNT.
  unfold in_use in *. repeat apply conj; try lia.
  rewrite Ha in Hge. change (alloc (priv boot)) with ES8388CHAR_TXBUF_CNT in Hge.
  lia.
Qed.

(** No entry of a run stops at the model's loop bound: the pre-posting
    loop of DEQUEUEBUFFER always ends. *)
Lemma run_never_unfinished (evs : list event) :
  Forall (fun entry => forall w'', snd entry <> Unfinished w'')
         (snd (run boot evs)).
Proof. exact (proj2 (proj2 (proj2 (run_effect evs boot boot_inv)))). Qed.

End RunInvariants.

(** *** Runs on concrete schedules *)

(** A transmit completion for a buffer that did not come from ALLOCBUFFER:
    a received buffer is dequeued and sent back out, and its completion
    posts a gate that was never taken. *)
Lemma loopback_overfills_gate :
  let dequeue := Ev_ioctl AUDIOIOC_DEQUEUEBUFFER (ArgBufDesc no_buffer) willing_env in
  let enqueue :=
    Ev_ioctl AUDIOIOC_ENQUEUEBUFFER (ArgBufDesc (mk_bufdesc 16384 (Some 0%nat)))
             willing_env in
  let r := run boot [dequeue; Ev_rxcallback 0%nat 0;
                     Ev_resume_dequeue (mk_bufdesc 16384 None);
                     enqueue; Ev_txcallback 0%nat 0] in
  dequeued (snd r) = [Some 0%nat] /\
  rx_cnt (priv (fst r)) = 8 /\
  alloc (priv (fst r)) = 9 /\
  in_use (fst r) = -1.
Proof. cbv zeta. repeat apply conj; vm_compute; reflexivity. Qed.

(** Eight buffers can be allocated, the ninth call suspends, and a
    transmit completion lets it through. *)
Lemma ninth_allocation_waits :
  let alloc_ok := Ev_ioctl AUDIOIOC_ALLOCBUFFER (ArgBufDesc no_buffer) willing_env in
  let w8 := fst (run boot (repeat alloc_ok 8)) in
  in_use w8 = 8 /\
  step w8 alloc_ok = Blocks w8 /\
  halts (step (fst (run w8 [Ev_txcallback 0%nat 0])) alloc_ok) = false /\
  in_use (fst (run w8 [Ev_txcallback 0%nat 0; alloc_ok])) = 8.
Proof. cbv zeta. repeat apply conj; vm_compute; reflexivity. Qed.

(** Completions 5, 3, 9 are dequeued as 5, 3 with 9 still queued. *)
Lemma rx_queue_order_example :
  let dequeue := Ev_ioctl AUDIOIOC_DEQUEUEBUFFER (ArgBufDesc no_buffer) willing_env in
  let r := run boot [Ev_rxcallback 5%nat 0; Ev_rxcallback 3%nat 0; dequeue;
                     Ev_rxcallback 9%nat 0; dequeue] in
  dequeued (snd r) = [Some 5%nat; Some 3%nat] /\
  rxedq (priv (fst r)) = [9%nat].
Proof. cbv zeta. split; vm_compute; reflexivity. Qed.

(** ** What an entry leaves alone *)

Section Frames.
Context {H : Headers}.

Ltac split_ifs :=
  repeat match goal with
         | |- context [if ?c then _ else _] => destruct c; drv_simpl
         end.

(** The pre-posting loop changes nothing but [rx_cnt] (and the trace),
    and never raises [rx_cnt] above the number of receive buffers. *)
Lemma dequeue_prepost_frame (fuel : nat) :
  forall (e : env) (k : nat) (r : Z) (bufdesc : audio_buf_desc_s) (w : world),
    let w' := world_of (dequeue_prepost fuel e k r bufdesc w) in
    settings (priv w') = settings (priv w) /\
    rxedq (priv w') = rxedq (priv w) /\
    cnt_rxsem (priv w') = cnt_rxsem (priv w) /\
    alloc (priv w') = alloc (priv w) /\
    exclsem (priv w') = exclsem (priv w) /\
    rx_cnt (priv w) <= rx_cnt (priv w') /\
    (rx_cnt (priv w) <= ES8388CHAR_RXBUF_CNT ->
     rx_cnt (priv w') <= ES8388CHAR_RXBUF_CNT).
Proof.
  induction fuel as [| fuel IH]; intros e k r bufdesc w;
    rewrite dequeue_prepost_eq;
    destruct (Z.ltb_spec (rx_cnt (priv w)) ES8388CHAR_RXBUF_CNT) as [Hlt | Hge];
    cbv zeta; drv_simpl;
    try (repeat apply conj; try reflexivity; lia).
  unfold apb_alloc, I2S_RECEIVE. drv.
  destruct (apb_alloc_ret e k <? 0); drv_simpl;
    [ repeat apply conj; try reflexivity; lia | ].
  destruct (i2s_receive_ret e k <? 0); drv_simpl;
    [ repeat apply conj; try reflexivity; lia | ].
  match goal with
  | |- context [sem_wait SEM_rxsem ?w0] =>
      destruct (Z.ltb_spec 0 (sem_count SEM_rxsem (priv w0))) as [Hfree | Hbusy];
      [ rewrite (sem_wait_free SEM_rxsem w0 Hfree)
      | rewrite (sem_wait_busy SEM_rxsem w0 Hbusy) ]
  end; drv_simpl;
    [ | repeat apply conj; try reflexivity; lia ].
  match goal with
  | |- context [dequeue_prepost fuel ?e1 ?k1 ?r1 ?b1 ?w1] =>
      specialize (IH e1 k1 r1 b1 w1); cbv zeta in IH;
      revert IH;
      generalize (world_of (dequeue_prepost fuel e1 k1 r1 b1 w1))
  end.
  intros w2. unfold settings. drv_simpl.
  intros (Hset & Hq & Hc & Ha & He & Hle & Hmax).
  repeat apply conj; try assumption; try lia.
Qed.

Lemma settings_flags (p p' : es8388char_dev_s) :
  settings p' = settings p -> flags p' = flags p.
Proof. unfold settings, flags. intros E. injection E as. congruence. Qed.

(** Configure writes settings only: the buffer flow, [exclsem] and the
    life-cycle flags are as before, and it always returns. *)
Lemma configure_frame_flags (caps : audio_caps_s) (w : world) :
  exists r w',
    es8388char_configure caps w = Returns r w' /\
    exclsem (priv w') = exclsem (priv w) /\
    rx_cnt (priv w') = rx_cnt (priv w) /\
    flags (priv w') = flags (priv w).
Proof.
  unfold es8388char_configure, es8388char_setvolume, es8388char_setmic,
    es8388char_setdatawidth, es8388char_setbitrate.
  rewrite DEBUGASSERT_true. drv.
  repeat match goal with
         | |- context [if ?c then _ else _] => destruct c; drv_simpl
         | |- context [match FsRatio_of ?x with _ => _ end] =>
             destruct (FsRatio_of x); drv_simpl
         end;
    do 2 eexists; (split; [ reflexivity | unfold flags; drv_simpl; tauto ]).
Qed.

Lemma dequeue_take_frame (bufdesc : audio_buf_desc_s) (w : world) :
  let w' := world_of (dequeue_take bufdesc w) in
  settings (priv w') = settings (priv w) /\
  alloc (priv w') = alloc (priv w) /\
  exclsem (priv w') = exclsem (priv w) /\
  rx_cnt (priv w') = rx_cnt (priv w).
Proof.
  unfold dequeue_take, sem_wait. drv. split_ifs;
    repeat apply conj; reflexivity.
Qed.

Ltac chain_frame :=
  drv_simpl; repeat apply conj; intros;
  try assumption; try (etransitivity; eassumption); try lia;
  try (apply settings_flags; etransitivity; eassumption);
  try (apply settings_flags; assumption).

Ltac close_frame :=
  unfold settings, flags, is_configure; drv_simpl; decide_labels;
  repeat apply conj; intros; try reflexivity; try discriminate; try lia.

(** One entry: the settings move only under CONFIGURE, [exclsem] never
    moves, and [rx_cnt] stays at or below the number of receive buffers. *)
Lemma step_frame (w : world) (ev : event) :
  let w' := world_of (step w ev) in
  (is_configure ev = false -> settings (priv w') = settings (priv w)) /\
  exclsem (priv w') = exclsem (priv w) /\
  (rx_cnt (priv w) <= ES8388CHAR_RXBUF_CNT ->
   rx_cnt (priv w') <= ES8388CHAR_RXBUF_CNT) /\
  flags (priv w') = flags (priv w).
Proof.
  pose proof ioctl_labels as N. split_labels N.
  destruct ev as [cmd arg e | bufdesc | apb result | apb result];
    unfold step; cbv zeta.
  - unfold es8388char_ioctl. rewrite DEBUGASSERT_true.
    destruct (Z.eqb_spec cmd AUDIOIOC_ALLOCBUFFER) as [-> | ?]; hide_neq.
    { destruct arg; unfold apb_alloc, sem_wait; drv; split_ifs; close_frame. }
    destruct (Z.eqb_spec cmd AUDIOIOC_FREEBUFFER) as [-> | ?]; hide_neq.
    { destruct arg; unfold DEBUGASSERT, sem_wait; drv; split_ifs; close_frame. }
    destruct (Z.eqb_spec cmd AUDIOIOC_ENQUEUEBUFFER) as [-> | ?]; hide_neq.
    { destruct arg; unfold I2S_SEND; drv; close_frame. }
    destruct (Z.eqb_spec cmd AUDIOIOC_DEQUEUEBUFFER) as [-> | ?]; hide_neq.
    { destruct arg as [b | c | v]; [ | drv; close_frame .. ].
      unfold bind, get_priv, ret.
      pose proof (dequeue_prepost_frame
                    (Z.to_nat (ES8388CHAR_RXBUF_CNT - rx_cnt (priv w)))
                    e 0%nat 0 b w) as F. cbv zeta in F.
      destruct (dequeue_prepost
                  (Z.to_nat (ES8388CHAR_RXBUF_CNT - rx_cnt (priv w)))
                  e 0%nat 0 b w) as [[r' b'] w' | w' | w' | w'];
        cbn [world_of fst snd] in F |- *;
        destruct F as (Fs & _ & _ & _ & Fe & _ & Fm);
        try solve [ chain_frame ].
      destruct (0 <=? r').
      - pose proof (dequeue_take_frame
                      (mk_bufdesc (numbytes b') None) w') as T.
        cbv zeta in T. destruct T as (Ts & _ & Te & Tr).
        destruct (dequeue_take (mk_bufdesc (numbytes b') None) w')
          as [[r'' a''] w'' | w'' | w'' | w''];
          cbn [world_of] in Ts, Te, Tr |- *; chain_frame.
      - chain_frame. }
    destruct (Z.eqb_spec cmd AUDIOIOC_CONFIGURE) as [-> | ?]; hide_neq.
    { destruct arg as [b | caps | v]; [ drv; close_frame | | drv; close_frame ].
      destruct (configure_frame_flags caps w) as (r & w' & E & He & Hr & Hf).
      unfold bind, ret. rewrite E.
      unfold is_configure. rewrite Z.eqb_refl. drv_simpl.
      repeat apply conj; intros; try discriminate; try assumption; lia. }
    destruct (Z.eqb_spec cmd AUDIOIOC_START) as [-> | ?]; hide_neq.
    { unfold es8388char_start. destruct arg; drv; close_frame. }
    destruct (Z.eqb_spec cmd AUDIOIOC_STOP) as [-> | ?]; hide_neq.
    { unfold es8388char_stop. destruct arg; drv; close_frame. }
    destruct arg; drv; close_frame.
  - pose proof (dequeue_take_frame bufdesc w) as T.
    cbv zeta in T. destruct T as (Ts & _ & Te & Tr).
    unfold bind, ret.
    destruct (dequeue_take bufdesc w) as [[r'' a''] w'' | w'' | w'' | w''];
      cbn [world_of] in Ts, Te, Tr |- *; chain_frame.
  - unfold es8388char_rxcallback, sem_wait. rewrite DEBUGASSERT_true.
    drv. split_ifs; close_frame.
  - unfold es8388char_txcallback. rewrite DEBUGASSERT_true.
    drv. close_frame.
Qed.

(** Configure keeps every setting inside the range its guard allows. *)
Lemma configure_keeps_ranges (caps : audio_caps_s) (w : world) :
  0 <= ac_controls_hw0 caps < 65536 ->
  settings_in_range (priv w) ->
  settings_in_range (priv (world_of (es8388char_configure caps w))).
Proof.
  intros Hhw (Hv & Hb & Hg & Hc).
  unfold es8388char_configure, es8388char_setvolume, es8388char_setmic,
    es8388char_setdatawidth, es8388char_setbitrate.
  rewrite DEBUGASSERT_true. drv.
  destruct (ac_type caps =? AUDIO_TYPE_FEATURE).
  - destruct (ac_format_hw caps =? AUDIO_FU_VOLUME).
    { destruct (Z.leb_spec (ac_controls_hw0 caps) 1000) as [Hle | Hgt];
        unfold settings_in_range; drv_simpl; [ | tauto ].
      destruct (volume_register_range (ac_controls_hw0 caps)) as [E R];
        [ lia | ].
      rewrite E. tauto. }
    destruct (ac_format_hw caps =? AUDIO_FU_MUTE).
    { unfold settings_in_range; drv_simpl; tauto. }
    destruct (ac_format_hw caps =? AUDIO_FU_BALANCE).
    { destruct (Z.leb_spec (Z.abs (to_int16 (ac_controls_hw0 caps))) 1000);
        unfold settings_in_range; drv_simpl; [ | tauto ].
      repeat apply conj; try tauto; lia. }
    destruct (ac_format_hw caps =? AUDIO_FU_MICGAIN).
    { destruct (Z.leb_spec (-16) (to_int16 (ac_controls_hw0 caps)));
        destruct (Z.leb_spec (to_int16 (ac_controls_hw0 caps)) 53);
        cbn [andb]; unfold settings_in_range; drv_simpl; tauto. }
    unfold settings_in_range; drv_simpl; tauto.
  - destruct (ac_type caps =? AUDIO_TYPE_OUTPUT).
    + destruct (Z.eqb_spec (ac_channels caps) 2) as [E2 | ?]; cbn [negb].
      * destruct (FsRatio_of _); unfold settings_in_range; drv_simpl;
          rewrite E2; repeat apply conj; try tauto; right; reflexivity.
      * unfold settings_in_range; drv_simpl; tauto.
    + destruct (ac_type caps =? AUDIO_TYPE_PROCESSING);
        unfold settings_in_range; drv_simpl; tauto.
Qed.

End Frames.

(** ** Invariants of runs *)

Section RunProperties.
Context {H : Headers}.

(** A property kept by every admissible entry is kept by every run. *)
Lemma run_preserves (P : world -> Prop) (ok : event -> Prop) :
  (forall w ev, ok ev -> P w -> P (world_of (step w ev))) ->
  forall evs w, Forall ok evs -> P w -> P (fst (run w evs)).
Proof.
  intros Hstep. induction evs as [| ev evs IH]; intros w Hok HP.
  - exact HP.
  - inversion Hok as [| ? ? Hev Hevs]; subst. cbn [run].
    destruct (halts (step w ev)); cbn [fst].
    + apply Hstep; assumption.
    + apply IH; [ assumption | apply Hstep; assumption ].
Qed.

Lemma Forall_trivial_events (evs : list event) : Forall (fun _ => True) evs.
Proof. induction evs; constructor; trivial. Qed.

(** What holds of each entry taken from a state between entries holds of
    every entry of a run. *)
Lemma run_entries
    (Q : event * outcome (option (Z * ioctl_arg)) -> Prop) :
  (forall w ev, gate_queue_inv w -> Q (ev, step w ev)) ->
  forall evs w, gate_queue_inv w -> Forall Q (snd (run w evs)).
Proof.
  intros Hstep. induction evs as [| ev evs IH]; intros w Hinv.
  - constructor.
  - cbn [run]. destruct (step_effect w ev Hinv) as (Hinv' & _).
    cbn [snd] in Hinv'.
    destruct (halts (step w ev)); cbn [snd].
    + constructor; [ apply Hstep; exact Hinv | constructor ].
    + constructor; [ apply Hstep; exact Hinv | apply IH; exact Hinv' ].
Qed.

(** X1: in every run of the registered device whose Configure requests
    carry a 16-bit [hw[0]], the stored volume stays in 0..63, the balance
    in -1000..1000, the mic gain in -16..53 and the channel count is 0
    (never configured) or 2. *)
Theorem settings_stay_in_range (evs : list event) :
  Forall request_in_range evs ->
  settings_in_range (priv (fst (run boot evs))).
Proof.
  intros Hok.
  apply (run_preserves (fun w => settings_in_range (priv w)) request_in_range);
    [ | exact Hok | unfold settings_in_range; cbn; lia ].
  clear evs Hok. intros w ev Hev HP.
  destruct (is_configure ev) eqn:Ecfg.
  - destruct ev as [cmd arg e | | | ]; try discriminate Ecfg.
    cbn [is_configure] in Ecfg. apply Z.eqb_eq in Ecfg. subst cmd.
    destruct arg as [b | caps | v].
    + pose proof ioctl_labels as N. split_labels N.
      unfold step, es8388char_ioctl. rewrite DEBUGASSERT_true.
      decide_labels. drv. exact HP.
    + cbn [request_in_range] in Hev. unfold step.
      rewrite ioctl_is_configure.
      pose proof (configure_keeps_ranges caps w Hev HP) as K.
      destruct (configure_frame_flags caps w) as (r & w' & E & _).
      unfold bind, ret. rewrite E in K |- *. exact K.
    + pose proof ioctl_labels as N. split_labels N.
      unfold step, es8388char_ioctl. rewrite DEBUGASSERT_true.
      decide_labels. drv. exact HP.
  - destruct (step_frame w ev) as (Fs & _).
    specialize (Fs Ecfg). unfold settings in Fs. injection Fs as.
    unfold settings_in_range in *. congruence.
Qed.

(** X2: an entry that is not a CONFIGURE ioctl (any other ioctl, a resumed
    dequeue, a completion callback) leaves every setting and every
    life-cycle flag of the device as it was, from any state and whether it
    returns, suspends or faults. *)
Theorem only_configure_changes_settings (w : world) (ev : event) :
  is_configure ev = false ->
  settings (priv (world_of (step w ev))) = settings (priv w).
Proof. intros Hev. exact (proj1 (step_frame w ev) Hev). Qed.

(** X3: in every run of the registered device, where entries do not
    overlap (each ioctl or callback runs to its return, or to the
    semaphore where it suspends, before the next one starts), the field
    [rx_cnt] never exceeds ES8388CHAR_RXBUF_CNT = 8.  The loop test of
    DEQUEUEBUFFER reads [rx_cnt] outside [rxsem]; two DEQUEUEBUFFER calls
    that overlap there are not runs in this sense, see
    [overlapping_dequeues_pass_limit]. *)
Theorem rx_cnt_limit_without_overlap (evs : list event) :
  rx_cnt (priv (fst (run boot evs))) <= ES8388CHAR_RXBUF_CNT.
Proof.
  apply (run_preserves
           (fun w => rx_cnt (priv w) <= ES8388CHAR_RXBUF_CNT)
           (fun _ => True));
    [ | apply Forall_trivial_events | vm_compute; discriminate ].
  intros w ev _ HP. exact (proj1 (proj2 (proj2 (step_frame w ev))) HP).
Qed.

(** [dequeue_round] is the body of the pre-posting loop. *)
Lemma dequeue_prepost_round (fuel : nat) (e : env) (k : nat) (r : Z)
    (bufdesc : audio_buf_desc_s) (w : world) :
  dequeue_prepost (S fuel) e k r bufdesc w =
  if rx_cnt (priv w) <? ES8388CHAR_RXBUF_CNT then
    bind (dequeue_round e k bufdesc)
         (fun rb => if fst rb <? 0 then ret rb
                    else dequeue_prepost fuel e (S k) (fst rb) (snd rb)) w
  else Returns (r, bufdesc) w.
Proof.
  rewrite dequeue_prepost_eq.
  destruct (rx_cnt (priv w) <? ES8388CHAR_RXBUF_CNT); [ | reflexivity ].
  cbv zeta. unfold dequeue_round, apb_alloc, I2S_RECEIVE. drv.
  destruct (apb_alloc_ret e k <? 0) eqn:Ea; drv_simpl;
    [ rewrite Ea; reflexivity | ].
  destruct (i2s_receive_ret e k <? 0) eqn:Er; drv_simpl;
    [ rewrite Er; reflexivity | ].
  destruct (sem_wait SEM_rxsem _); drv_simpl; try reflexivity.
  rewrite Er. reflexivity.
Qed.

(** Two DEQUEUEBUFFER callers that both passed the loop test while
    [rx_cnt] was 7 each run one round of the loop, one after the other,
    and [rx_cnt] ends at 9: nothing serialises the test with the
    increment. *)
Lemma overlapping_dequeues_pass_limit
    (w : world) (e1 e2 : env) (b1 b2 : audio_buf_desc_s) :
  rxsem (priv w) = 1 ->
  rx_cnt (priv w) = 7 ->
  0 <= apb_alloc_ret e1 0 -> 0 <= i2s_receive_ret e1 0 ->
  0 <= apb_alloc_ret e2 0 -> 0 <= i2s_receive_ret e2 0 ->
  rx_cnt (priv (world_of
    (bind (dequeue_round e1 0 b1) (fun _ => dequeue_round e2 0 b2) w))) = 9.
Proof.
  intros Hs Hc Ha1 Hr1 Ha2 Hr2.
  unfold dequeue_round, apb_alloc, I2S_RECEIVE. drv.
  destruct (Z.ltb_spec (apb_alloc_ret e1 0) 0); [ lia | ].
  destruct (Z.ltb_spec (i2s_receive_ret e1 0) 0); [ lia | ].
  rewrite sem_wait_free by (drv_simpl; lia). drv_simpl.
  destruct (Z.ltb_spec (apb_alloc_ret e2 0) 0); [ lia | ].
  destruct (Z.ltb_spec (i2s_receive_ret e2 0) 0); [ lia | ].
  rewrite sem_wait_free by (drv_simpl; lia). drv_simpl. lia.
Qed.

Lemma take_out_length (b : ap_buffer) (l l' : list ap_buffer) :
  take_out b l = Some l' -> length l = S (length l').
Proof.
  revert l'. induction l as [| x l IH]; intros l' E; cbn [take_out] in E.
  - discriminate.
  - destruct (Nat.eqb x b).
    + injection E as <-. reflexivity.
    + destruct (take_out b l) as [l0 |]; cbn [option_map] in E;
        [ | discriminate ].
      injection E as <-. cbn [length]. f_equal. apply IH. reflexivity.
Qed.

(** The buffers held never outnumber the slots in use. *)
Lemma held_step (w : world) (ev : event) (held held' : list ap_buffer) :
  gate_queue_inv w ->
  Z.of_nat (length held) <= in_use w ->
  held_after held (ev, step w ev) = Some held' ->
  Z.of_nat (length held') <= in_use (world_of (step w ev)).
Proof.
  intros Hinv Hheld Hafter.
  destruct (step_effect w ev Hinv) as (_ & _ & Ha & _).
  cbn [snd] in Ha. unfold in_use in *. rewrite Ha. clear Ha.
  destruct ev as [cmd arg e | bufdesc | apb result | apb result];
    cbn [held_after passed_gate tx_completion] in *.
  - destruct (step w (Ev_ioctl cmd arg e)) as [[[r a] |] w' | w' | w' | w'];
      try (injection Hafter as <-; destruct (cmd =? AUDIOIOC_ALLOCBUFFER); lia).
    destruct (cmd =? AUDIOIOC_ALLOCBUFFER); cbn [andb] in Hafter.
    + destruct (0 <=? r); injection Hafter as <-; cbn [length]; lia.
    + injection Hafter as <-. lia.
  - injection Hafter as <-.
    destruct (step w (Ev_resume_dequeue bufdesc)); lia.
  - injection Hafter as <-.
    destruct (step w (Ev_rxcallback apb result)); lia.
  - apply take_out_length in Hafter.
    destruct (step w (Ev_txcallback apb result)); lia.
Qed.

Lemma held_run (evs : list event) :
  forall (w : world) (held : list ap_buffer),
    gate_queue_inv w ->
    Z.of_nat (length held) <= in_use w ->
    completions_answer_allocations held (snd (run w evs)) = true ->
    exists held' : list ap_buffer,
      Z.of_nat (length held') <= in_use (fst (run w evs)).
Proof.
  induction evs as [| ev evs IH]; intros w held Hinv Hheld Hok.
  - exists held. exact Hheld.
  - cbn [run] in *.
    destruct (step_effect w ev Hinv) as (Hinv' & _). cbn [snd] in Hinv'.
    destruct (halts (step w ev));
      cbn [fst snd completions_answer_allocations] in *;
      destruct (held_after held (ev, step w ev)) as [held1 |] eqn:E1;
      try discriminate.
    + exists held1. apply (held_step w ev held); assumption.
    + apply (IH (world_of (step w ev)) held1);
        [ exact Hinv' | apply (held_step w ev held); assumption | exact Hok ].
Qed.

Lemma run_history_app (evs evs' : list event) :
  forall w : world,
    exists h, snd (run w (evs ++ evs')) = snd (run w evs) ++ h.
Proof.
  induction evs as [| ev evs IH]; intros w.
  - exists (snd (run w evs')). reflexivity.
  - cbn [app run]. destruct (halts (step w ev)); cbn [snd].
    + exists []. reflexivity.
    + destruct (IH (world_of (step w ev))) as (h & Eh).
      exists h. rewrite Eh. reflexivity.
Qed.

Lemma completions_answer_prefix (h1 h2 : history) :
  forall held,
    completions_answer_allocations held (h1 ++ h2) = true ->
    completions_answer_allocations held h1 = true.
Proof.
  induction h1 as [| entry h1 IH]; intros held Hok.
  - reflexivity.
  - cbn [app completions_answer_allocations] in *.
    destruct (held_after held entry); [ apply IH; exact Hok | discriminate ].
Qed.

(** C3: take any run of the registered device in which every transmit
    completion answers a buffer that ALLOCBUFFER handed out and that has
    not completed before, as the transport delivers them.  At every point
    of the run (after any first part [evs] of it) the number of gate slots
    in use is at least 0 and at most the ceiling 8, whatever else happens
    in the run: allocations that fail, FREEBUFFER, the other commands. *)
Theorem gate_in_use_within_ceiling (evs evs' : list event) :
  completions_answer_allocations [] (snd (run boot (evs ++ evs'))) = true ->
  0 <= in_use (fst (run boot evs)) <= ES8388CHAR_TXBUF_CNT.
Proof.
  intros Hok.
  destruct (run_history_app evs evs' boot) as (h & Eh). rewrite Eh in Hok.
  apply completions_answer_prefix in Hok.
  destruct (run_effect evs boot boot_inv) as ((_ & _ & Hge) & _).
  destruct (held_run evs boot [] boot_inv) as (held' & Hheld');
    [ vm_compute; discriminate | exact Hok | ].
  unfold in_use in *. lia.
Qed.

(** X4: in every run of the registered device the flags [running],
    [paused] and [terminating] are false and [exclsem] still has its
    initial count 1: no entry of the driver ever writes them. *)
Theorem lifecycle_state_is_never_written (evs : list event) :
  flags (priv (fst (run boot evs))) = (false, false, false) /\
  exclsem (priv (fst (run boot evs))) = 1.
Proof.
  apply (run_preserves
           (fun w => flags (priv w) = (false, false, false) /\
                     exclsem (priv w) = 1)
           (fun _ => True));
    [ | apply Forall_trivial_events | split; reflexivity ].
  intros w ev _ [Hf He].
  destruct (step_frame w ev) as (_ & Fe & _ & Ff).
  split; congruence.
Qed.

(** X5: in every run of the registered device, between two entries the
    guard [rxsem] is free and the counting semaphore [cnt_rxsem] equals the
    number of buffers in the queue of received buffers. *)
Theorem availability_count_is_queue_length (evs : list event) :
  rxsem (priv (fst (run boot evs))) = 1 /\
  cnt_rxsem (priv (fst (run boot evs))) =
    Z.of_nat (length (rxedq (priv (fst (run boot evs))))).
Proof.
  destruct (run_effect evs boot boot_inv) as ((Hs & Hc & _) & _).
  split; assumption.
Qed.

Lemma callback_returns (w : world) (ev : event) :
  gate_queue_inv w -> callback_returned (ev, step w ev).
Proof.
  intros (Hs & _ & _).
  destruct ev as [cmd arg e | bufdesc | apb result | apb result];
    cbn [callback_returned]; trivial; unfold step.
  - unfold es8388char_rxcallback. rewrite DEBUGASSERT_true.
    unfold bind, ret. rewrite sem_wait_free by (drv_simpl; lia).
    drv. eexists. reflexivity.
  - unfold es8388char_txcallback. rewrite DEBUGASSERT_true.
    drv. eexists. reflexivity.
Qed.

(** X6: in every run of the registered device each completion callback,
    receive or transmit, runs to its end: it never suspends on a semaphore
    and never faults. *)
Theorem callbacks_always_return (evs : list event) :
  Forall callback_returned (snd (run boot evs)).
Proof.
  apply (run_entries callback_returned); [ | exact boot_inv ].
  intros w ev Hinv. apply callback_returns. exact Hinv.
Qed.

End RunProperties.

(** ** More of Configure *)

Section MoreConfigure.
Context {H : Headers}.

(** X7: Configure(balance, b), b being the request read as an int16_t.
    For |b| <= 1000 the stored balance becomes b and nothing else changes;
    for any other b the call returns OK with the device as before. *)
Theorem configure_balance_range (w : world) (caps : audio_caps_s) (e : env) :
  ac_type caps = AUDIO_TYPE_FEATURE ->
  ac_format_hw caps = AUDIO_FU_BALANCE ->
  let b := to_int16 (ac_controls_hw0 caps) in
  (Z.abs b <= 1000 ->
   es8388char_ioctl AUDIOIOC_CONFIGURE (ArgCaps caps) e w =
     Returns (OK, ArgCaps caps)
             (mk_world (set_balance b (priv w)) (trace w))) /\
  (1000 < Z.abs b ->
   es8388char_ioctl AUDIOIOC_CONFIGURE (ArgCaps caps) e w =
     Returns (OK, ArgCaps caps) w).
Proof.
  intros Ht Hf b.
  pose proof fu_labels as N. split_labels N.
  rewrite ioctl_is_configure. unfold es8388char_configure.
  rewrite DEBUGASSERT_true, Ht, Hf, Z.eqb_refl.
  decide_labels. fold b.
  split; intros Hb;
    destruct (Z.leb_spec (Z.abs b) 1000); try lia; reflexivity.
Qed.

(** X8: a feature Configure whose feature unit is none of volume, mute,
    balance and mic gain returns -ENOTTY, a negative value, and leaves the
    device as it was. *)
Theorem configure_unknown_feature (w : world) (caps : audio_caps_s) (e : env) :
  ac_type caps = AUDIO_TYPE_FEATURE ->
  ~ In (ac_format_hw caps)
       [AUDIO_FU_VOLUME; AUDIO_FU_MUTE; AUDIO_FU_BALANCE; AUDIO_FU_MICGAIN] ->
  es8388char_ioctl AUDIOIOC_CONFIGURE (ArgCaps caps) e w =
    Returns (- ENOTTY, ArgCaps caps) w /\
  - ENOTTY < 0.
Proof.
  intros Ht Hf. pose proof errno_positive as P.
  rewrite ioctl_is_configure. unfold es8388char_configure.
  rewrite DEBUGASSERT_true, Ht, Z.eqb_refl.
  repeat match goal with
         | |- context [ac_format_hw caps =? ?l] =>
             destruct (Z.eqb_spec (ac_format_hw caps) l) as [E | _];
             [ exfalso; apply Hf; rewrite E; cbn; tauto | ]
         end.
  split; [ reflexivity | lia ].
Qed.

(** X9: a Configure whose capability type is neither feature nor output
    (processing or anything else) returns OK and does nothing. *)
Theorem configure_other_type (w : world) (caps : audio_caps_s) (e : env) :
  ~ In (ac_type caps) [AUDIO_TYPE_FEATURE; AUDIO_TYPE_OUTPUT] ->
  es8388char_ioctl AUDIOIOC_CONFIGURE (ArgCaps caps) e w =
    Returns (OK, ArgCaps caps) w.
Proof.
  intros Ht.
  rewrite ioctl_is_configure. unfold es8388char_configure.
  rewrite DEBUGASSERT_true.
  repeat match goal with
         | |- context [ac_type caps =? ?l] =>
             destruct (Z.eqb_spec (ac_type caps) l) as [E | _];
             [ try (exfalso; apply Ht; rewrite E; cbn; tauto) | ]
         end; reflexivity.
Qed.

(** X10: the same Configure request issued twice in a row returns the same
    value both times, and the second call leaves the device structure
    exactly as the first one left it. *)
Theorem configure_twice_is_once (w : world) (caps : audio_caps_s) (e : env) :
  let o1 := es8388char_ioctl AUDIOIOC_CONFIGURE (ArgCaps caps) e w in
  let o2 := es8388char_ioctl AUDIOIOC_CONFIGURE (ArgCaps caps) e (world_of o1) in
  exists r,
    (exists w1, o1 = Returns (r, ArgCaps caps) w1) /\
    (exists w2, o2 = Returns (r, ArgCaps caps) w2) /\
    priv (world_of o2) = priv (world_of o1).
Proof.
  cbv zeta. rewrite ioctl_is_configure.
  unfold es8388char_configure, es8388char_setvolume, es8388char_setmic,
    es8388char_setdatawidth, es8388char_setbitrate.
  rewrite DEBUGASSERT_true. drv.
  repeat match goal with
         | |- context [if ?c then _ else _] => destruct c; drv_simpl
         | |- context [match FsRatio_of ?x with _ => _ end] =>
             destruct (FsRatio_of x); drv_simpl
         end;
    eexists; (split; [ eexists; reflexivity | ]);
    (split; [ eexists; reflexivity | reflexivity ]).
Qed.

(** X11: [es8388char_setbitrate] knows exactly the seven rates 8K, 12K,
    16K, 24K, 32K, 48K and 96K, and gives different rates different ratio
    codes. *)
Theorem FsRatio_of_supported_rates :
  (forall rate,
     FsRatio_of rate <> None <->
     In rate [AUDIO_SAMP_RATE_8K; AUDIO_SAMP_RATE_12K; AUDIO_SAMP_RATE_16K;
              AUDIO_SAMP_RATE_24K; AUDIO_SAMP_RATE_32K; AUDIO_SAMP_RATE_48K;
              AUDIO_SAMP_RATE_96K]) /\
  (forall a b r, FsRatio_of a = Some r -> FsRatio_of b = Some r -> a = b).
Proof.
  split.
  - intros rate. unfold FsRatio_of. cbn [In].
    repeat match goal with
           | |- context [rate =? ?l] =>
               destruct (Z.eqb_spec rate l) as [E | ?];
               [ split; [ intros _; rewrite E; tauto | discriminate ] | ]
           end.
    split; [ congruence | ]. intros G.
    repeat (destruct G as [G | G]; [ congruence | ]). contradiction.
  - intros a b r. unfold FsRatio_of.
    repeat match goal with
           | |- context [a =? ?l] => destruct (Z.eqb_spec a l)
           end;
      repeat match goal with
             | |- context [b =? ?l] => destruct (Z.eqb_spec b l)
             end;
      intros Ha Hb; congruence.
Qed.


(** X13: a feature Configure (volume, mute, balance, mic gain or an
    unknown unit) never calls a collaborator: the new setting is stored in
    the device structure and is not written to the codec. *)
Theorem feature_configure_stays_local
    (w : world) (caps : audio_caps_s) (e : env) :
  ac_type caps = AUDIO_TYPE_FEATURE ->
  trace (world_of (es8388char_ioctl AUDIOIOC_CONFIGURE (ArgCaps caps) e w)) =
    trace w.
Proof.
  intros Ht.
  rewrite ioctl_is_configure.
  unfold es8388char_configure, es8388char_setvolume, es8388char_setmic.
  rewrite DEBUGASSERT_true, Ht, Z.eqb_refl. drv.
  repeat match goal with
         | |- context [if ?c then _ else _] => destruct c; drv_simpl
         end; reflexivity.
Qed.

(** X14: the two channel levels [es8388char_setvolume] derives from a
    volume of 0..255 and a balance of -1000..1000 both lie between 0 and
    the volume; a positive balance lowers only the left level, a negative
    one only the right level, and a balance of 1000 or -1000 brings that
    level to 0. *)
Theorem setvolume_levels_bounds (p : es8388char_dev_s) :
  0 <= volume p <= 255 ->
  -1000 <= balance p <= 1000 ->
  let l := fst (es8388char_setvolume_levels p) in
  let r := snd (es8388char_setvolume_levels p) in
  0 <= l <= volume p /\ 0 <= r <= volume p /\
  (balance p <= 0 -> l = volume p) /\
  (0 <= balance p -> r = volume p) /\
  (0 < balance p -> l = volume p - volume p * balance p / 1000) /\
  (balance p < 0 -> r = volume p - volume p * (- balance p) / 1000) /\
  (balance p = 1000 -> l = 0) /\
  (balance p = -1000 -> r = 0).
Proof.
  intros Hv Hb. unfold es8388char_setvolume_levels, to_uint16.
  rewrite (Z.mod_small (volume p)) by lia.
  assert (Hq : forall b, 0 <= b <= 1000 ->
                0 <= volume p * b / 1000 <= volume p).
  { intros b Hb'. split.
    - apply Z.div_pos; nia.
    - apply Z.div_le_upper_bound; nia. }
  destruct (Z.ltb_spec 0 (balance p)) as [Hpos | Hnpos];
    destruct (Z.ltb_spec (balance p) 0) as [Hneg | Hnneg];
    try lia; cbn [fst snd].
  - rewrite Z.abs_eq by lia. rewrite Z.quot_div_nonneg by nia.
    specialize (Hq (balance p) ltac:(lia)).
    rewrite Z.mod_small by lia.
    repeat apply conj; intros; try lia.
    subst. replace (balance p) with 1000 in * by lia.
    rewrite Z.div_mul by lia. lia.
  - rewrite Z.abs_neq by lia. rewrite Z.quot_div_nonneg by nia.
    specialize (Hq (- balance p) ltac:(lia)).
    rewrite Z.mod_small by lia.
    repeat apply conj; intros; try lia.
    replace (- balance p) with 1000 in * by lia.
    rewrite Z.div_mul by lia. lia.
  - repeat apply conj; intros; lia.
Qed.

End MoreConfigure.

(** ** More of the dispatcher *)

Section MoreDispatcher.
Context {H : Headers}.

(** X15: ALLOCBUFFER suspends exactly when no slot of the gate is free,
    and then before anything else is done.  With a free slot it takes the
    slot, asks the pool once for the size given (0 is passed on as it is)
    and returns the pool's answer. *)
Theorem allocbuffer_gate (w : world) (bufdesc : audio_buf_desc_s) (e : env) :
  (alloc (priv w) <= 0 ->
   es8388char_ioctl AUDIOIOC_ALLOCBUFFER (ArgBufDesc bufdesc) e w = Blocks w) /\
  (0 < alloc (priv w) ->
   es8388char_ioctl AUDIOIOC_ALLOCBUFFER (ArgBufDesc bufdesc) e w =
     Returns (apb_alloc_ret e 0, ArgBufDesc bufdesc)
       (mk_world (set_alloc (alloc (priv w) - 1) (priv w))
          (trace w ++
           [Call_apb_alloc (numbytes bufdesc) (apb_alloc_ret e 0)
              (if apb_alloc_ret e 0 <? 0 then None
               else Some (apb_alloc_buf e 0))]))).
Proof.
  rewrite ioctl_is_allocbuffer. unfold bind. split; intros Ha.
  - rewrite (sem_wait_busy SEM_alloc) by exact Ha. reflexivity.
  - rewrite (sem_wait_free SEM_alloc) by exact Ha. reflexivity.
Qed.

Lemma ioctl_is_freebuffer (bufdesc : audio_buf_desc_s) (e : env) :
  es8388char_ioctl AUDIOIOC_FREEBUFFER (ArgBufDesc bufdesc) e =
  bind (DEBUGASSERT (match u_pBuffer bufdesc with
                     | Some _ => true | None => false end)) (fun _ =>
  bind (apb_free (u_pBuffer bufdesc)) (fun _ =>
  bind get_priv (fun p =>
  bind (DEBUGASSERT (0 <? rx_cnt p)) (fun _ =>
  bind (sem_wait SEM_rxsem) (fun _ =>
  bind (modify_priv (fun p => set_rx_cnt (rx_cnt p - 1) p)) (fun _ =>
  bind (sem_post SEM_rxsem) (fun _ =>
  ret (SIZEOF_audio_buf_desc_s, ArgBufDesc bufdesc)))))))).
Proof.
  pose proof ioctl_labels as N. split_labels N.
  unfold es8388char_ioctl. rewrite DEBUGASSERT_true.
  decide_labels. reflexivity.
Qed.

(** X16: FREEBUFFER, entered with the queue guard free.  In a debug build
    a NULL buffer faults at once, and a buffer freed while [rx_cnt] is not
    positive faults after the buffer went back to the pool.  Otherwise the
    buffer goes back to the pool, [rx_cnt] drops by one (below zero in a
    non-debug build if it was not positive), nothing else in the device
    changes, and sizeof(struct audio_buf_desc_s) is returned. *)
Theorem freebuffer_effect (w : world) (bufdesc : audio_buf_desc_s) (e : env) :
  rxsem (priv w) = 1 ->
  (CONFIG_DEBUG = true -> u_pBuffer bufdesc = None ->
   es8388char_ioctl AUDIOIOC_FREEBUFFER (ArgBufDesc bufdesc) e w = Faults w) /\
  (CONFIG_DEBUG = true -> u_pBuffer bufdesc <> None -> rx_cnt (priv w) <= 0 ->
   es8388char_ioctl AUDIOIOC_FREEBUFFER (ArgBufDesc bufdesc) e w =
     Faults (mk_world (priv w)
               (trace w ++ [Call_apb_free (u_pBuffer bufdesc)]))) /\
  (CONFIG_DEBUG = false \/ (u_pBuffer bufdesc <> None /\ 0 < rx_cnt (priv w)) ->
   exists w',
     es8388char_ioctl AUDIOIOC_FREEBUFFER (ArgBufDesc bufdesc) e w =
       Returns (SIZEOF_audio_buf_desc_s, ArgBufDesc bufdesc) w' /\
     priv w' = set_rx_cnt (rx_cnt (priv w) - 1) (priv w) /\
     trace w' = trace w ++ [Call_apb_free (u_pBuffer bufdesc)]).
Proof.
  intros Hs. rewrite ioctl_is_freebuffer. unfold DEBUGASSERT.
  repeat apply conj.
  - intros Hd Hn. rewrite Hd, Hn. reflexivity.
  - intros Hd Hn Hc. rewrite Hd.
    destruct (u_pBuffer bufdesc) as [apb |]; [ | contradiction ].
    drv. cbn [andb negb]. drv_simpl.
    destruct (Z.ltb_spec 0 (rx_cnt (priv w))); [ lia | ]. reflexivity.
  - intros Hok.
    assert (CONFIG_DEBUG &&
              negb (match u_pBuffer bufdesc with
                    | Some _ => true | None => false end) = false) as E1.
    { destruct Hok as [Hd | [Hn _]]; [ rewrite Hd; reflexivity | ].
      destruct (u_pBuffer bufdesc); [ apply andb_false_r | contradiction ]. }
    assert (CONFIG_DEBUG && negb (0 <? rx_cnt (priv w)) = false) as E2.
    { destruct Hok as [Hd | [_ Hc]]; [ rewrite Hd; reflexivity | ].
      destruct (Z.ltb_spec 0 (rx_cnt (priv w))); [ apply andb_false_r | lia ]. }
    drv. rewrite E1. drv_simpl. rewrite E2.
    rewrite sem_wait_free by (drv_simpl; lia).
    drv_simpl. eexists. split; [ reflexivity | ]. drv_simpl.
    split; [ | reflexivity ].
    unfold set_rx_cnt, set_rxsem. drv_simpl. rewrite Hs. reflexivity.
Qed.

Lemma ioctl_is_dequeuebuffer (bufdesc : audio_buf_desc_s) (e : env) (w : world) :
  es8388char_ioctl AUDIOIOC_DEQUEUEBUFFER (ArgBufDesc bufdesc) e w =
  match dequeue_prepost (Z.to_nat (ES8388CHAR_RXBUF_CNT - rx_cnt (priv w)))
                        e 0 0 bufdesc w with
  | Returns rb w' =>
      if 0 <=? fst rb
      then dequeue_take (mk_bufdesc (numbytes (snd rb)) None) w'
      else Returns (fst rb, ArgBufDesc (mk_bufdesc (numbytes (snd rb)) None)) w'
  | Blocks w' => Blocks w'
  | Faults w' => Faults w'
  | Unfinished w' => Unfinished w'
  end.
Proof.
  pose proof ioctl_labels as N. split_labels N.
  unfold es8388char_ioctl. rewrite DEBUGASSERT_true.
  decide_labels. unfold bind, get_priv, ret.
  destruct (dequeue_prepost _ e 0 0 bufdesc w) as [[r b] w' | | | ];
    try reflexivity.
  cbn [fst snd]. destruct (0 <=? r); reflexivity.
Qed.

Lemma default_size_again (nbytes : Z) :
  default_size (default_size nbytes) = default_size nbytes.
Proof.
  unfold default_size. destruct (Z.eqb_spec nbytes 0) as [-> | Hn].
  - reflexivity.
  - destruct (Z.eqb_spec nbytes 0); [ contradiction | reflexivity ].
Qed.

Lemma rounds_left (c : Z) :
  c < ES8388CHAR_RXBUF_CNT ->
  Z.to_nat (ES8388CHAR_RXBUF_CNT - c) =
  S (Z.to_nat (ES8388CHAR_RXBUF_CNT - (c + 1))).
Proof.
  intros Hc. rewrite <- Z2Nat.inj_succ by lia. f_equal. lia.
Qed.

Lemma no_rounds_left (c : Z) :
  ES8388CHAR_RXBUF_CNT <= c -> Z.to_nat (ES8388CHAR_RXBUF_CNT - c) = 0%nat.
Proof. intros Hc. lia. Qed.

(** The pre-posting loop when pool and transport accept everything. *)
Lemma dequeue_prepost_accepting (fuel : nat) :
  forall (e : env) (k : nat) (r : Z) (bufdesc : audio_buf_desc_s) (w : world),
    rxsem (priv w) = 1 ->
    (forall i, 0 <= apb_alloc_ret e i) ->
    (forall i, 0 <= i2s_receive_ret e i) ->
    0 <= r ->
    ES8388CHAR_RXBUF_CNT - rx_cnt (priv w) <= Z.of_nat fuel ->
    exists r' b' w',
      dequeue_prepost fuel e k r bufdesc w = Returns (r', b') w' /\
      0 <= r' /\
      rx_cnt (priv w') = Z.max (rx_cnt (priv w)) ES8388CHAR_RXBUF_CNT /\
      trace w' =
        trace w ++
        posted e (default_size (numbytes bufdesc)) k
               (Z.to_nat (ES8388CHAR_RXBUF_CNT - rx_cnt (priv w))).
Proof.
  induction fuel as [| fuel IH]; intros e k r bufdesc w Hs Hpool Hi2s Hr Hfuel;
    rewrite dequeue_prepost_eq;
    destruct (Z.ltb_spec (rx_cnt (priv w)) ES8388CHAR_RXBUF_CNT) as [Hlt | Hge];
    try lia;
    try (do 3 eexists; split; [ reflexivity | ];
         rewrite no_rounds_left by lia; unfold posted; cbn [seq flat_map];
         rewrite app_nil_r; repeat apply conj; try reflexivity; lia).
  cbv zeta. unfold apb_alloc, I2S_RECEIVE. drv.
  destruct (Z.ltb_spec (apb_alloc_ret e k) 0) as [Hbad | _];
    [ specialize (Hpool k); lia | ].
  destruct (Z.ltb_spec (i2s_receive_ret e k) 0) as [Hbad | _];
    [ specialize (Hi2s k); lia | ].
  rewrite sem_wait_free by (drv_simpl; lia).
  drv_simpl. rewrite Hs.
  match goal with
  | |- exists r' b' w', dequeue_prepost ?f ?e1 ?k1 ?r1 ?b1 ?w1 = _ /\ _ =>
      destruct (IH e1 k1 r1 b1 w1) as (r' & b' & w' & E & Hr' & Hc & Ht);
      [ drv_simpl; lia | exact Hpool | exact Hi2s | apply Hi2s
      | drv_simpl; lia | ]
  end.
  exists r', b', w'. split; [ exact E | ]. split; [ exact Hr' | ].
  revert Hc Ht. drv_simpl. intros Hc Ht. split; [ lia | ].
  rewrite Ht, (rounds_left (rx_cnt (priv w))) by lia.
  unfold posted. cbn [seq flat_map app]. rewrite <- !app_assoc. cbn [app].
  replace (numbytes (if numbytes bufdesc =? 0
                     then mk_bufdesc (1024 * 16) (u_pBuffer bufdesc)
                     else bufdesc))
    with (default_size (numbytes bufdesc))
    by (unfold default_size; destruct (numbytes bufdesc =? 0); reflexivity).
  rewrite default_size_again. reflexivity.
Qed.

(** X17: DEQUEUEBUFFER on a device between entries, with at most 8 receive
    buffers outstanding and a pool and a transport that accept every
    request.  It first posts exactly 8 - rx_cnt receive buffers, each of
    the size asked for (16384 when the size given is 0), allocation before
    receive request, which brings [rx_cnt] to 8.  Then, if the queue of
    received buffers is empty the call suspends; otherwise it returns 0
    with the oldest buffer of the queue, which is removed from it. *)
Theorem dequeue_tops_up_then_takes
    (w : world) (bufdesc : audio_buf_desc_s) (e : env) :
  gate_queue_inv w ->
  rx_cnt (priv w) <= ES8388CHAR_RXBUF_CNT ->
  (forall i, 0 <= apb_alloc_ret e i) ->
  (forall i, 0 <= i2s_receive_ret e i) ->
  let o := es8388char_ioctl AUDIOIOC_DEQUEUEBUFFER (ArgBufDesc bufdesc) e w in
  rx_cnt (priv (world_of o)) = ES8388CHAR_RXBUF_CNT /\
  trace (world_of o) =
    trace w ++
    posted e (default_size (numbytes bufdesc)) 0
           (Z.to_nat (ES8388CHAR_RXBUF_CNT - rx_cnt (priv w))) /\
  (rxedq (priv w) = [] -> o = Blocks (world_of o)) /\
  (forall apb q,
     rxedq (priv w) = apb :: q ->
     exists nbytes,
       o = Returns (0, ArgBufDesc (mk_bufdesc nbytes (Some apb))) (world_of o) /\
       rxedq (priv (world_of o)) = q).
Proof.
  intros Hinv Hcnt Hpool Hi2s. pose proof Hinv as (Hs & Hc & Ha).
  cbv zeta. rewrite ioctl_is_dequeuebuffer.
  destruct (dequeue_prepost_accepting
              (Z.to_nat (ES8388CHAR_RXBUF_CNT - rx_cnt (priv w)))
              e 0%nat 0 bufdesc w Hs Hpool Hi2s ltac:(lia) ltac:(lia))
    as (r' & b' & w' & E & Hr' & Hcnt' & Ht).
  destruct (dequeue_prepost_returns
              (Z.to_nat (ES8388CHAR_RXBUF_CNT - rx_cnt (priv w)))
              e 0%nat 0 bufdesc w Hs ltac:(lia))
    as (r2 & b2 & w2 & E2 & Hq & Hs' & Hc' & Ha').
  rewrite E in E2. injection E2 as <- <- <-.
  rewrite E. cbn [fst snd].
  destruct (Z.leb_spec 0 r'); [ | lia ].
  assert (gate_queue_inv w') as Hinv'.
  { unfold gate_queue_inv. rewrite Hs', Hc', Hq, Ha'. tauto. }
  destruct (dequeue_take_effect w' (mk_bufdesc (numbytes b') None) Hinv')
    as [[Hbusy Eb] | (apb & q & Eq & Et)]; rewrite ?Eb, ?Et; drv_simpl.
  - repeat apply conj; try assumption; try lia.
    + reflexivity.
    + intros apb q Eq. rewrite <- Hq, Hc' in *. rewrite Hc, Eq in Hbusy.
      cbn [length] in Hbusy. lia.
  - repeat apply conj; try assumption; try lia.
    + intros Eq0. rewrite <- Hq, Eq in Eq0. discriminate.
    + intros apb0 q0 Eq0. rewrite <- Hq, Eq in Eq0.
      injection Eq0 as <- <-. eexists. split; reflexivity.
Qed.

(** X18: DEQUEUEBUFFER with fewer than 8 receive buffers outstanding, when
    the first round of pre-posting fails.  If the pool refuses, the pool's
    error is returned; if the transport refuses the receive request, the
    buffer just allocated goes back to the pool and the transport's error
    is returned.  In both cases the call does not wait, hands out no buffer
    (u.pBuffer is NULL) and leaves the device structure as it was, queued
    buffers included. *)
Theorem dequeue_reports_first_failure
    (w : world) (bufdesc : audio_buf_desc_s) (e : env) :
  rx_cnt (priv w) < ES8388CHAR_RXBUF_CNT ->
  let nbytes := default_size (numbytes bufdesc) in
  (apb_alloc_ret e 0 < 0 ->
   es8388char_ioctl AUDIOIOC_DEQUEUEBUFFER (ArgBufDesc bufdesc) e w =
     Returns (apb_alloc_ret e 0, ArgBufDesc (mk_bufdesc nbytes None))
       (mk_world (priv w)
          (trace w ++ [Call_apb_alloc nbytes (apb_alloc_ret e 0) None]))) /\
  (0 <= apb_alloc_ret e 0 -> i2s_receive_ret e 0 < 0 ->
   es8388char_ioctl AUDIOIOC_DEQUEUEBUFFER (ArgBufDesc bufdesc) e w =
     Returns (i2s_receive_ret e 0, ArgBufDesc (mk_bufdesc nbytes None))
       (mk_world (priv w)
          (trace w ++
           [Call_apb_alloc nbytes (apb_alloc_ret e 0)
                           (Some (apb_alloc_buf e 0));
            Call_I2S_RECEIVE (apb_alloc_buf e 0)
                             CONFIG_AUDIO_ES8388CHAR_RXTIMEOUT
                             (i2s_receive_ret e 0);
            Call_apb_free (Some (apb_alloc_buf e 0))]))).
Proof.
  intros Hlt nbytes. subst nbytes.
  rewrite ioctl_is_dequeuebuffer, (rounds_left (rx_cnt (priv w))) by exact Hlt.
  rewrite dequeue_prepost_eq.
  destruct (Z.ltb_spec (rx_cnt (priv w)) ES8388CHAR_RXBUF_CNT); [ | lia ].
  cbv zeta. unfold apb_alloc, I2S_RECEIVE, default_size. drv.
  split.
  - intros Hpool.
    destruct (Z.ltb_spec (apb_alloc_ret e 0) 0); [ | lia ].
    drv_simpl. destruct (Z.leb_spec 0 (apb_alloc_ret e 0)); [ lia | ].
    destruct (numbytes bufdesc =? 0); reflexivity.
  - intros Hpool Hi2s.
    destruct (Z.ltb_spec (apb_alloc_ret e 0) 0); [ lia | ].
    destruct (Z.ltb_spec (i2s_receive_ret e 0) 0); [ | lia ].
    drv_simpl. destruct (Z.leb_spec 0 (i2s_receive_ret e 0)); [ lia | ].
    rewrite <- !app_assoc. cbn [app].
    destruct (numbytes bufdesc =? 0); reflexivity.
Qed.

Lemma count_of_app {A} (f : A -> bool) (l l' : list A) :
  count_of f (l ++ l') = count_of f l + count_of f l'.
Proof. unfold count_of. rewrite filter_app, length_app. lia. Qed.

(** The pre-posting loop keeps account of the buffers it takes. *)
Lemma dequeue_prepost_balance (fuel : nat) :
  forall (e : env) (k : nat) (r : Z) (bufdesc : audio_buf_desc_s) (w : world),
    rxsem (priv w) = 1 ->
    exists t,
      trace (world_of (dequeue_prepost fuel e k r bufdesc w)) = trace w ++ t /\
      count_of pool_handed_out t =
        rx_cnt (priv (world_of (dequeue_prepost fuel e k r bufdesc w)))
        - rx_cnt (priv w) + count_of pool_given_back t.
Proof.
  induction fuel as [| fuel IH]; intros e k r bufdesc w Hs;
    rewrite dequeue_prepost_eq;
    destruct (Z.ltb_spec (rx_cnt (priv w)) ES8388CHAR_RXBUF_CNT) as [Hlt | Hge];
    try (exists []; drv_simpl; rewrite app_nil_r;
         split; [ reflexivity | unfold count_of; cbn; lia ]).
  cbv zeta. unfold apb_alloc, I2S_RECEIVE. drv.
  destruct (apb_alloc_ret e k <? 0); drv_simpl.
  { eexists. split; [ reflexivity | ].
    unfold count_of. cbn. lia. }
  destruct (i2s_receive_ret e k <? 0); drv_simpl.
  { eexists. split; [ rewrite <- !app_assoc; reflexivity | ].
    unfold count_of. cbn. lia. }
  rewrite sem_wait_free by (drv_simpl; lia).
  drv_simpl. rewrite Hs.
  match goal with
  | |- context [dequeue_prepost fuel ?e1 ?k1 ?r1 ?b1 ?w1] =>
      destruct (IH e1 k1 r1 b1 w1) as (t & Ht & Hbal);
      [ drv_simpl; lia | ];
      revert Ht Hbal;
      generalize (world_of (dequeue_prepost fuel e1 k1 r1 b1 w1))
  end.
  intros w2. drv_simpl. intros Ht Hbal.
  eexists. split; [ rewrite Ht, <- !app_assoc; reflexivity | ].
  cbn [app]. rewrite !count_of_cons. cbn [pool_handed_out pool_given_back].
  lia.
Qed.

(** X19: DEQUEUEBUFFER on a device between entries, whatever the pool and
    the transport answer and however the call ends: every buffer it took
    from the pool was either posted to the transport and counted in
    [rx_cnt], or given back to the pool.  No receive buffer is lost. *)
Theorem dequeue_accounts_for_buffers
    (w : world) (bufdesc : audio_buf_desc_s) (e : env) :
  gate_queue_inv w ->
  let w' := world_of
              (es8388char_ioctl AUDIOIOC_DEQUEUEBUFFER (ArgBufDesc bufdesc) e w) in
  exists t,
    trace w' = trace w ++ t /\
    count_of pool_handed_out t =
      rx_cnt (priv w') - rx_cnt (priv w) + count_of pool_given_back t.
Proof.
  intros Hinv. pose proof Hinv as (Hs & Hc & Ha). cbv zeta.
  rewrite ioctl_is_dequeuebuffer.
  destruct (dequeue_prepost_balance
              (Z.to_nat (ES8388CHAR_RXBUF_CNT - rx_cnt (priv w)))
              e 0%nat 0 bufdesc w Hs) as (t & Ht & Hbal).
  destruct (dequeue_prepost_returns
              (Z.to_nat (ES8388CHAR_RXBUF_CNT - rx_cnt (priv w)))
              e 0%nat 0 bufdesc w Hs ltac:(lia))
    as (r' & b' & w' & E & Hq & Hs' & Hc' & Ha').
  rewrite E in Ht, Hbal |- *. cbn [world_of fst snd] in Ht, Hbal |- *.
  exists t.
  destruct (0 <=? r'); [ | cbn [world_of]; split; assumption ].
  assert (gate_queue_inv w') as Hinv'.
  { unfold gate_queue_inv. rewrite Hs', Hc', Hq, Ha'. tauto. }
  destruct (dequeue_take_effect w' (mk_bufdesc (numbytes b') None) Hinv')
    as [[Hbusy Eb] | (apb & q & Eq & Et)]; rewrite ?Eb, ?Et; drv_simpl;
    split; assumption.
Qed.

(** X20: a transmit round trip.  From any state with a free slot, an
    ALLOCBUFFER, an ENQUEUEBUFFER and the transmit completion callback,
    in this order, leave the device structure exactly as it was (the slot
    taken by the allocation is back), whatever the pool and the transport
    answered; the collaborators saw one allocation, one send and one
    release of the completed buffer. *)
Theorem transmit_round_trip
    (w : world) (b1 b2 : audio_buf_desc_s) (e1 e2 : env)
    (apb : ap_buffer) (result : Z) :
  0 < alloc (priv w) ->
  fst (run w [Ev_ioctl AUDIOIOC_ALLOCBUFFER (ArgBufDesc b1) e1;
              Ev_ioctl AUDIOIOC_ENQUEUEBUFFER (ArgBufDesc b2) e2;
              Ev_txcallback apb result]) =
    mk_world (priv w)
      (trace w ++
       [Call_apb_alloc (numbytes b1) (apb_alloc_ret e1 0)
          (if apb_alloc_ret e1 0 <? 0 then None else Some (apb_alloc_buf e1 0));
        Call_I2S_SEND (u_pBuffer b2) CONFIG_AUDIO_ES8388CHAR_TXTIMEOUT
          (i2s_send_ret e2);
        Call_apb_free (Some apb)]).
Proof.
  intros Ha.
  set (w1 := mk_world (set_alloc (alloc (priv w) - 1) (priv w))
               (trace w ++
                [Call_apb_alloc (numbytes b1) (apb_alloc_ret e1 0)
                   (if apb_alloc_ret e1 0 <? 0 then None
                    else Some (apb_alloc_buf e1 0))])).
  assert (step w (Ev_ioctl AUDIOIOC_ALLOCBUFFER (ArgBufDesc b1) e1) =
          Returns (Some (apb_alloc_ret e1 0, ArgBufDesc b1)) w1) as S1.
  { unfold step. rewrite ioctl_is_allocbuffer. unfold bind.
    rewrite (sem_wait_free SEM_alloc) by exact Ha. reflexivity. }
  set (w2 := mk_world (priv w1)
               (trace w1 ++
                [Call_I2S_SEND (u_pBuffer b2) CONFIG_AUDIO_ES8388CHAR_TXTIMEOUT
                   (i2s_send_ret e2)])).
  assert (step w1 (Ev_ioctl AUDIOIOC_ENQUEUEBUFFER (ArgBufDesc b2) e2) =
          Returns (Some (i2s_send_ret e2, ArgBufDesc b2)) w2) as S2.
  { unfold step. rewrite ioctl_is_enqueuebuffer. reflexivity. }
  assert (step w2 (Ev_txcallback apb result) =
          Returns None
            (mk_world (set_alloc (alloc (priv w2) + 1) (priv w2))
                      (trace w2 ++ [Call_apb_free (Some apb)]))) as S3.
  { unfold step, es8388char_txcallback. rewrite DEBUGASSERT_true.
    reflexivity. }
  cbn [run]. rewrite S1. cbn [halts world_of]. rewrite S2.
  cbn [halts world_of]. rewrite S3. cbn [halts world_of fst].
  subst w1 w2. drv_simpl. rewrite <- !app_assoc. cbn [app].
  destruct w as [p t]. destruct p. drv_simpl.
  unfold set_alloc. drv_simpl. do 2 f_equal. lia.
Qed.

(** X21: [es8388char_register].  In a debug build a missing I2S or I2C
    handle, or a minor that is not below 1000 as an unsigned number (a
    negative one included), faults before anything is allocated.
    Otherwise the function returns a negative value (-ENOMEM) exactly when
    the device structure cannot be allocated; when [register_driver] fails
    it still returns OK although the structure has been freed and no
    device exists.  A device that does come out of it has all 8 gate slots
    free, the guard free, an empty queue with [cnt_rxsem] and [rx_cnt] at
    0, and zeroed settings. *)
Theorem register_outcome
    (i2s i2c : bool) (minor : Z)
    (kmm_zalloc_ok : bool) (register_driver_ret : Z) :
  let args_ok := i2s && i2c && (to_uint32 minor <? 1000) in
  let o := es8388char_register i2s i2c minor kmm_zalloc_ok register_driver_ret in
  (CONFIG_DEBUG = true -> args_ok = false -> o = None) /\
  (CONFIG_DEBUG = false \/ args_ok = true ->
   exists r dev,
     o = Some (r, dev) /\
     (r < 0 <-> kmm_zalloc_ok = false) /\
     (kmm_zalloc_ok = true -> r = OK) /\
     (dev <> None <-> kmm_zalloc_ok = true /\ 0 <= register_driver_ret) /\
     (forall p,
        dev = Some p ->
        alloc p = ES8388CHAR_TXBUF_CNT /\ exclsem p = 1 /\ rxsem p = 1 /\
        cnt_rxsem p = 0 /\ rx_cnt p = 0 /\ rxedq p = [] /\
        settings p = (0, 0, 0, 0, 0, 0, false, false, false, false))).
Proof.
  pose proof errno_positive as (_ & _ & Hm).
  cbv zeta. unfold es8388char_register. split.
  - intros Hd Hargs. rewrite Hd, Hargs. reflexivity.
  - intros Hok.
    assert (negb (i2s && i2c && (to_uint32 minor <? 1000)) && CONFIG_DEBUG
            = false) as E.
    { destruct Hok as [Hd | Hargs]; [ rewrite Hd; apply andb_false_r | ].
      rewrite Hargs. reflexivity. }
    rewrite E.
    destruct kmm_zalloc_ok; do 2 eexists; (split; [ reflexivity | ]).
    + split; [ unfold OK; split; [ lia | discriminate ] | ].
      split; [ reflexivity | ].
      destruct (Z.ltb_spec register_driver_ret 0).
      * split; [ split; [ congruence | intros [_ ?]; lia ] | discriminate ].
      * split; [ split; [ intros _; split; [ reflexivity | lia ]
                        | discriminate ] | ].
        intros p Ep. injection Ep as <-. repeat apply conj; reflexivity.
    + split; [ split; [ reflexivity | lia ] | ].
      split; [ discriminate | ].
      split; [ split; [ congruence | intros [? _]; discriminate ]
             | discriminate ].
Qed.

End MoreDispatcher.

(** ** Register access over I2C *)

Section Codec.

Lemma land_lnot_255 (d : Z) : 0 <= d < 256 -> Z.land d (Z.lnot 255) = 0.
Proof.
  intros Hd. apply Z.bits_inj'. intros n Hn.
  rewrite Z.land_spec, Z.lnot_spec, Z.bits_0 by exact Hn.
  destruct (Z.ltb_spec n 8) as [Hlow | Hhigh].
  - change 255 with (Z.ones 8). rewrite Z.ones_spec_low by lia.
    apply andb_false_r.
  - destruct (Z.eq_dec d 0) as [-> | Hnz].
    + rewrite Z.bits_0. reflexivity.
    + rewrite (Z.bits_above_log2 d n); [ reflexivity | lia | ].
      assert (Z.log2 d < 8) by (apply Z.log2_lt_pow2; lia). lia.
Qed.

Lemma to_uint8_range (x : Z) : 0 <= to_uint8 x < 256.
Proof. unfold to_uint8. apply Z.mod_pos_bound. lia. Qed.

Lemma readreg_range (e : i2c_env) (regaddr : Z) (bus : list bus_op) :
  0 <= fst (es8388char_readreg e regaddr bus) < 256.
Proof.
  unfold es8388char_readreg, i2c_write, i2c_read.
  destruct (_ <? 0); cbn [fst]; [ lia | ].
  destruct (_ <? 0); cbn [fst]; [ lia | apply to_uint8_range ].
Qed.

Lemma reg_writes_app (b1 b2 : list bus_op) :
  reg_writes (b1 ++ b2) = reg_writes b1 ++ reg_writes b2.
Proof. unfold reg_writes. apply flat_map_app. Qed.

Lemma delays_app (b1 b2 : list bus_op) :
  delays (b1 ++ b2) = delays b1 ++ delays b2.
Proof. unfold delays. apply flat_map_app. Qed.

(** Reading a register issues no register write and no delay. *)
Lemma readreg_bus (e : i2c_env) (regaddr : Z) (bus : list bus_op) :
  reg_writes (snd (es8388char_readreg e regaddr bus)) = reg_writes bus /\
  delays (snd (es8388char_readreg e regaddr bus)) = delays bus.
Proof.
  unfold es8388char_readreg, i2c_write, i2c_read.
  destruct (_ <? 0); cbn [snd];
    [ rewrite reg_writes_app, delays_app; cbn; rewrite !app_nil_r; tauto | ].
  destruct (_ <? 0); cbn [snd];
    rewrite !reg_writes_app, !delays_app; cbn; rewrite !app_nil_r; tauto.
Qed.

(** X22: [es8388char_readreg] yields 0 when the address write fails (and
    then does not attempt the read) or when the read fails; otherwise it
    yields the low byte of the value returned by [i2c_read].  The byte the
    device delivered is never part of the result. *)
Theorem readreg_returns_status (e : i2c_env) (regaddr : Z) (bus : list bus_op) :
  let n := length bus in
  (i2c_write_ret e n < 0 ->
   es8388char_readreg e regaddr bus =
     (0, bus ++ [Bus_write [regaddr] (i2c_write_ret e n)])) /\
  (0 <= i2c_write_ret e n -> i2c_read_ret e (S n) < 0 ->
   fst (es8388char_readreg e regaddr bus) = 0) /\
  (0 <= i2c_write_ret e n -> 0 <= i2c_read_ret e (S n) ->
   fst (es8388char_readreg e regaddr bus) = to_uint8 (i2c_read_ret e (S n))) /\
  (forall e',
     (forall i, i2c_write_ret e' i = i2c_write_ret e i) ->
     (forall i, i2c_read_ret e' i = i2c_read_ret e i) ->
     fst (es8388char_readreg e' regaddr bus) =
     fst (es8388char_readreg e regaddr bus)).
Proof.
  cbv zeta. unfold es8388char_readreg, i2c_write, i2c_read.
  rewrite !length_app. cbn [length]. rewrite Nat.add_1_r.
  repeat apply conj.
  - intros Hw. destruct (Z.ltb_spec (i2c_write_ret e (length bus)) 0);
      [ reflexivity | lia ].
  - intros Hw Hr.
    destruct (Z.ltb_spec (i2c_write_ret e (length bus)) 0); [ lia | ].
    destruct (Z.ltb_spec (i2c_read_ret e (S (length bus))) 0);
      [ reflexivity | lia ].
  - intros Hw Hr.
    destruct (Z.ltb_spec (i2c_write_ret e (length bus)) 0); [ lia | ].
    destruct (Z.ltb_spec (i2c_read_ret e (S (length bus))) 0);
      [ lia | reflexivity ].
  - intros e' Hw Hr. rewrite !length_app. cbn [length].
    rewrite Nat.add_1_r, Hw, Hr.
    destruct (_ <? 0); [ reflexivity | ].
    destruct (_ <? 0); reflexivity.
Qed.

(** X23: [es8388char_modifyreg] with the full clear mask 0xFF, as every
    caller in the driver uses it, issues exactly one register write, of
    the byte [set] to [regaddr], whatever the bus answered to the reads
    before it, failures included; in general the byte written is the value
    read with the [clear] bits removed and the [set] bits added. *)
Theorem modifyreg_writes_set
    (e : i2c_env) (regaddr clear set : Z) (bus : list bus_op) :
  0 <= set < 256 ->
  let data := fst (es8388char_readreg e regaddr bus) in
  reg_writes (snd (es8388char_modifyreg e regaddr clear set bus)) =
    reg_writes bus ++
    [(regaddr, to_uint8 (Z.lor (to_uint8 (Z.land data (Z.lnot clear))) set))] /\
  (clear = 255 ->
   reg_writes (snd (es8388char_modifyreg e regaddr clear set bus)) =
     reg_writes bus ++ [(regaddr, set)]).
Proof.
  intros Hset data. subst data.
  pose proof (readreg_range e regaddr bus) as Hd.
  pose proof (readreg_bus e regaddr bus) as [Hw _].
  unfold es8388char_modifyreg.
  destruct (es8388char_readreg e regaddr bus) as [d bus1].
  cbn [fst snd] in *. unfold es8388char_writereg, i2c_write. cbn [snd].
  match goal with
  | |- context [es8388char_readreg e regaddr ?b] =>
      pose proof (readreg_bus e regaddr b) as [Hw2 _];
      destruct (es8388char_readreg e regaddr b) as [d2 bus2]
  end.
  cbn [snd] in *. rewrite Hw2, reg_writes_app, Hw.
  unfold reg_writes at 2. cbn [flat_map reg_write_of app].
  split; [ reflexivity | ].
  intros ->. rewrite land_lnot_255 by exact Hd.
  unfold to_uint8. rewrite Z.mod_0_l by lia. rewrite Z.lor_0_l.
  rewrite Z.mod_small by lia. reflexivity.
Qed.


End Codec.

(** ** The further properties on concrete inputs *)

(** Buffers 5 and 6 are allocated and complete in this order; after the
    first completion one slot is in use. *)
Lemma gate_in_use_within_ceiling_witness :
  0 <= in_use (fst (run boot
         [Ev_ioctl AUDIOIOC_ALLOCBUFFER (ArgBufDesc no_buffer) (handing_out 5%nat);
          Ev_ioctl AUDIOIOC_ALLOCBUFFER (ArgBufDesc no_buffer) (handing_out 6%nat);
          Ev_txcallback 5%nat 0]))
    <= ES8388CHAR_TXBUF_CNT.
Proof.
  apply (gate_in_use_within_ceiling
           [Ev_ioctl AUDIOIOC_ALLOCBUFFER (ArgBufDesc no_buffer) (handing_out 5%nat);
            Ev_ioctl AUDIOIOC_ALLOCBUFFER (ArgBufDesc no_buffer) (handing_out 6%nat);
            Ev_txcallback 5%nat 0]
           [Ev_txcallback 6%nat 0]).
  vm_compute. reflexivity.
Defined.

Ltac range_ok :=
  first [ exact I | vm_compute; split; [ discriminate | reflexivity ] ].

(** Volume 500, mic gain -16 and a receive completion, in one run. *)
Lemma settings_stay_in_range_witness :
  settings_in_range
    (priv (fst (run boot
      [Ev_ioctl AUDIOIOC_CONFIGURE (ArgCaps (caps_volume 500)) willing_env;
       Ev_ioctl AUDIOIOC_CONFIGURE (ArgCaps (caps_micgain 65520)) willing_env;
       Ev_rxcallback 0%nat 0]))).
Proof.
  apply settings_stay_in_range.
  repeat (apply Forall_cons; [ range_ok | ]). apply Forall_nil.
Defined.

(** A transmit completion on the registered device. *)
Lemma only_configure_changes_settings_witness :
  settings (priv (world_of (step boot (Ev_txcallback 0%nat 0)))) =
  settings (priv boot).
Proof.
  apply (only_configure_changes_settings boot (Ev_txcallback 0%nat 0)).
  reflexivity.
Defined.

(** The request 64536 is -1000 as an int16_t and is stored; 2000 is not. *)
Lemma configure_balance_range_witness :
  balance (priv (world_of (configure_on (caps_balance 64536) boot))) = -1000 /\
  configure_on (caps_balance 2000) boot =
    Returns (OK, ArgCaps (caps_balance 2000)) boot.
Proof.
  unfold configure_on. split.
  - rewrite (proj1 (configure_balance_range boot (caps_balance 64536)
                      willing_env eq_refl eq_refl)).
    + vm_compute. reflexivity.
    + vm_compute. discriminate.
  - apply (proj2 (configure_balance_range boot (caps_balance 2000)
                    willing_env eq_refl eq_refl)).
    vm_compute. reflexivity.
Defined.

Lemma configure_unknown_feature_witness :
  configure_on caps_bass boot = Returns (-25, ArgCaps caps_bass) boot.
Proof.
  unfold configure_on.
  apply (proj1 (configure_unknown_feature boot caps_bass willing_env eq_refl
                  ltac:(cbn; intuition discriminate))).
Defined.

Lemma configure_other_type_witness :
  configure_on caps_processing boot =
    Returns (OK, ArgCaps caps_processing) boot.
Proof.
  unfold configure_on.
  apply (configure_other_type boot caps_processing willing_env).
  cbn. intuition discriminate.
Defined.

(** 48000 has a ratio code, so it is one of the seven rates. *)
Lemma FsRatio_of_supported_rates_witness :
  In 48000 [AUDIO_SAMP_RATE_8K; AUDIO_SAMP_RATE_12K; AUDIO_SAMP_RATE_16K;
            AUDIO_SAMP_RATE_24K; AUDIO_SAMP_RATE_32K; AUDIO_SAMP_RATE_48K;
            AUDIO_SAMP_RATE_96K] /\
  (FsRatio_of 32000 = Some 3 -> FsRatio_of 32000 = Some 3 -> 32000 = 32000).
Proof.
  split.
  - apply (proj1 (proj1 FsRatio_of_supported_rates 48000)).
    vm_compute. discriminate.
  - apply (proj2 FsRatio_of_supported_rates 32000 32000 3).
Defined.


Lemma feature_configure_stays_local_witness :
  trace (world_of (configure_on (caps_volume 500) boot)) = [].
Proof.
  unfold configure_on.
  apply (feature_configure_stays_local boot (caps_volume 500) willing_env
           eq_refl).
Defined.

(** Volume 40 with balance 500: the left level is between 0 and 40. *)
Lemma setvolume_levels_bounds_witness :
  0 <= fst (es8388char_setvolume_levels
              (set_balance 500 (set_volume 40 zeroed_dev))) <= 40.
Proof.
  apply (proj1 (setvolume_levels_bounds
                  (set_balance 500 (set_volume 40 zeroed_dev))
                  ltac:(vm_compute; split; discriminate)
                  ltac:(vm_compute; split; discriminate))).
Defined.

(** The first allocation on the registered device takes one slot. *)
Lemma allocbuffer_gate_witness :
  ioctl_on AUDIOIOC_ALLOCBUFFER (ArgBufDesc no_buffer) willing_env boot =
    Returns (12, ArgBufDesc no_buffer)
      (mk_world (set_alloc 7 registered_dev) [Call_apb_alloc 0 12 (Some 0%nat)]).
Proof.
  unfold ioctl_on.
  rewrite (proj2 (allocbuffer_gate boot no_buffer willing_env)).
  - reflexivity.
  - vm_compute. reflexivity.
Defined.

(** Buffer 5 is freed while three receive buffers are outstanding. *)
Lemma freebuffer_effect_witness :
  exists w',
    ioctl_on AUDIOIOC_FREEBUFFER (ArgBufDesc (mk_bufdesc 0 (Some 5%nat)))
             willing_env three_posted =
      Returns (SIZEOF_audio_buf_desc_s, ArgBufDesc (mk_bufdesc 0 (Some 5%nat))) w' /\
    priv w' = set_rx_cnt (3 - 1) (priv three_posted) /\
    trace w' = trace three_posted ++ [Call_apb_free (Some 5%nat)].
Proof.
  unfold ioctl_on.
  apply (proj2 (proj2 (freebuffer_effect three_posted
                         (mk_bufdesc 0 (Some 5%nat)) willing_env eq_refl))).
  right. split; [ discriminate | vm_compute; reflexivity ].
Defined.

Lemma willing_pool (i : nat) : 0 <= apb_alloc_ret willing_env i.
Proof. cbn. lia. Qed.

Lemma willing_transport (i : nat) : 0 <= i2s_receive_ret willing_env i.
Proof. cbn. lia. Qed.

(** The first DEQUEUEBUFFER on the registered device posts 8 buffers. *)
Lemma dequeue_tops_up_then_takes_witness :
  rx_cnt (priv (world_of
    (ioctl_on AUDIOIOC_DEQUEUEBUFFER (ArgBufDesc no_buffer) willing_env boot))) =
  ES8388CHAR_RXBUF_CNT.
Proof.
  unfold ioctl_on.
  apply (proj1 (dequeue_tops_up_then_takes boot no_buffer willing_env boot_inv
                  ltac:(vm_compute; discriminate)
                  willing_pool willing_transport)).
Defined.

(** The first DEQUEUEBUFFER on the registered device, pool out of memory. *)
Lemma dequeue_reports_first_failure_witness :
  ioctl_on AUDIOIOC_DEQUEUEBUFFER (ArgBufDesc no_buffer) starved_env boot =
    Returns (-12, ArgBufDesc (mk_bufdesc 16384 None))
      (mk_world registered_dev [Call_apb_alloc 16384 (-12) None]).
Proof.
  unfold ioctl_on.
  rewrite (proj1 (dequeue_reports_first_failure boot no_buffer starved_env
                    ltac:(vm_compute; reflexivity))).
  - reflexivity.
  - vm_compute. reflexivity.
Defined.

(** The first DEQUEUEBUFFER on the registered device, transport refusing. *)
Lemma dequeue_accounts_for_buffers_witness :
  exists t,
    trace (world_of (ioctl_on AUDIOIOC_DEQUEUEBUFFER (ArgBufDesc no_buffer)
                              rejecting_env boot)) = trace boot ++ t /\
    count_of pool_handed_out t =
      rx_cnt (priv (world_of (ioctl_on AUDIOIOC_DEQUEUEBUFFER
                                (ArgBufDesc no_buffer) rejecting_env boot)))
      - rx_cnt (priv boot) + count_of pool_given_back t.
Proof.
  unfold ioctl_on.
  apply (dequeue_accounts_for_buffers boot no_buffer rejecting_env boot_inv).
Defined.

(** Allocate, send and complete buffer 0 on the registered device. *)
Lemma transmit_round_trip_witness :
  fst (run boot
         [Ev_ioctl AUDIOIOC_ALLOCBUFFER (ArgBufDesc no_buffer) willing_env;
          Ev_ioctl AUDIOIOC_ENQUEUEBUFFER (ArgBufDesc (mk_bufdesc 0 (Some 0%nat)))
                   willing_env;
          Ev_txcallback 0%nat 0]) =
    mk_world (priv boot)
      (trace boot ++
       [Call_apb_alloc 0 12 (Some 0%nat);
        Call_I2S_SEND (Some 0%nat) 0 0;
        Call_apb_free (Some 0%nat)]).
Proof.
  rewrite (transmit_round_trip boot no_buffer (mk_bufdesc 0 (Some 0%nat))
             willing_env willing_env 0%nat 0).
  - reflexivity.
  - vm_compute. reflexivity.
Defined.

(** In the debug build of the sample assignment: minor -1 faults, and on
    good arguments a failing [register_driver] is still reported as OK. *)
Lemma register_outcome_witness :
  es8388char_register true true (-1) true 0 = None /\
  es8388char_register true true 7 true (-1) = Some (OK, None).
Proof.
  split.
  - apply (proj1 (register_outcome true true (-1) true 0)); reflexivity.
  - destruct (proj2 (register_outcome true true 7 true (-1)))
      as (r & dev & E & _ & Hr & Hdev & _).
    + right. reflexivity.
    + rewrite E. specialize (Hr eq_refl). subst r.
      destruct dev as [p |]; [ | reflexivity ].
      destruct (proj1 Hdev ltac:(discriminate)) as [_ Hrd].
      vm_compute in Hrd. exfalso. apply Hrd. reflexivity.
Defined.

(** Reading register 0x2B on a bus where every transfer fails. *)
Lemma readreg_returns_status_witness :
  es8388char_readreg dead_bus 43 [] = (0, [Bus_write [43] (-5)]).
Proof.
  apply (proj1 (readreg_returns_status dead_bus 43 [])).
  vm_compute. reflexivity.
Defined.

(** Writing 0x12 to register 0x2B through a bus that reads back 0xAA. *)
Lemma modifyreg_writes_set_witness :
  reg_writes (snd (es8388char_modifyreg live_bus 43 255 18 [])) = [(43, 18)].
Proof.
  apply (proj2 (modifyreg_writes_set live_bus 43 255 18 []
                  ltac:(vm_compute; split; [ discriminate | reflexivity ]))).
  reflexivity.
Defined.
